(** * abs_scrape: the Grist client, the upload pipeline and the sample-board
    generators

    A shallow embedding of [grist_client.py], [grist_integration.py] and of
    the spreadsheet-writing part of the three [create_*_board.py] scripts,
    followed by the properties the specification states about them.

    Conventions.
    - A Python value is a [pyvalue]; a [dict] with string keys is an
      association list in insertion order, with [dict_set] behaving like
      [d[k] = v] (update in place, or append at the end).
    - Client code runs in a state-and-exception monad [M].  The state holds
      the remote side and the trace of calls made to [requests.request].
    - [print] calls are not modelled. *)

From Stdlib Require Import String Ascii List ZArith Lia Bool Floats DecimalString.
Import ListNotations.
Local Open Scope string_scope.
Local Open Scope list_scope.
Set Warnings "-register-all".

(* ===================================================================== *)
(** ** Python values *)
(* ===================================================================== *)

(** A [datetime.datetime] object. *)
Record datetime := mk_datetime {
  dt_year : Z; dt_month : Z; dt_day : Z;
  dt_hour : Z; dt_minute : Z; dt_second : Z; dt_microsecond : Z;
  dt_utcoffset : option Z
}.

(** The values that reach the client: what [json.load] and [csv.DictReader]
    produce, plus [datetime] objects, which the type inference tests for. *)
Inductive pyvalue : Type :=
| PNone
| PBool (b : bool)
| PInt (n : Z)
| PFloat (x : float)
| PStr (s : string)
| PDatetime (d : datetime)
| PList (items : list pyvalue)
| PDict (items : list (string * pyvalue)).

(** Exceptions the modelled code can raise. *)
Inductive exn : Type :=
| HTTPError (status : Z)          (* response.raise_for_status() *)
| RequestException                (* requests.request itself raised *)
| JSONDecodeError                 (* response.json() *)
| KeyError (key : string)
| ValueError (msg : string)
| TypeError
| AttributeError.

Inductive result (A : Type) : Type :=
| Ok (a : A)
| Raise (e : exn).
Arguments Ok {A} a.
Arguments Raise {A} e.

(* ===================================================================== *)
(** ** Dictionaries with string keys *)
(* ===================================================================== *)

Definition dict (V : Type) : Type := list (string * V).

Section Dict.
Context {V : Type}.

(** [d.get(k)] *)
Fixpoint dict_get (k : string) (d : dict V) : option V :=
  match d with
  | [] => None
  | (k', v) :: d' => if String.eqb k' k then Some v else dict_get k d'
  end.

(** [d[k] = v] *)
Fixpoint dict_set (k : string) (v : V) (d : dict V) : dict V :=
  match d with
  | [] => [(k, v)]
  | (k', v') :: d' =>
      if String.eqb k' k then (k', v) :: d' else (k', v') :: dict_set k v d'
  end.

(** [list(d.keys())] *)
Definition dict_keys (d : dict V) : list string := map fst d.

(** [k in d] *)
Definition dict_contains (k : string) (d : dict V) : bool :=
  match dict_get k d with Some _ => true | None => false end.

(** The dict a loop [for (k, v) in kvs: d[k] = v] builds on top of [d]. *)
Definition dict_update (kvs : list (string * V)) (d : dict V) : dict V :=
  fold_left (fun acc kv => dict_set (fst kv) (snd kv) acc) kvs d.

(** The value of the last pair with key [k]. *)
Fixpoint assoc_last (k : string) (kvs : list (string * V)) : option V :=
  match kvs with
  | [] => None
  | (k', v) :: rest =>
      match assoc_last k rest with
      | Some w => Some w
      | None => if String.eqb k' k then Some v else None
      end
  end.
End Dict.

(** [x in l] for a list of strings. *)
Definition str_in (x : string) (l : list string) : bool :=
  existsb (String.eqb x) l.

(** [v == s] for a string [s]: only an equal [str] compares equal. *)
Definition py_eq_str (v : pyvalue) (s : string) : bool :=
  match v with
  | PStr t => String.eqb t s
  | _ => false
  end.

(** [o == s] where [o] is the result of [d.get(k)] ([None] when absent). *)
Definition py_opt_eq_str (o : option pyvalue) (s : string) : bool :=
  match o with
  | Some v => py_eq_str v s
  | None => false
  end.

(** [v.get(k)]: only dicts have [get]. *)
Definition py_get (v : pyvalue) (k : string) : result (option pyvalue) :=
  match v with
  | PDict d => Ok (dict_get k d)
  | _ => Raise AttributeError
  end.

(** [v[k]] with a string subscript. *)
Definition py_getitem (v : pyvalue) (k : string) : result pyvalue :=
  match v with
  | PDict d =>
      match dict_get k d with
      | Some x => Ok x
      | None => Raise (KeyError k)
      end
  | _ => Raise TypeError
  end.

(** [v.keys()] *)
Definition py_keys (v : pyvalue) : result (list string) :=
  match v with
  | PDict d => Ok (dict_keys d)
  | _ => Raise AttributeError
  end.

Fixpoint chars (s : string) : list pyvalue :=
  match s with
  | EmptyString => []
  | String c s' => PStr (String c EmptyString) :: chars s'
  end.

(** The items a [for x in v] loop visits. *)
Definition py_iter (v : pyvalue) : result (list pyvalue) :=
  match v with
  | PList l => Ok l
  | PDict d => Ok (map PStr (dict_keys d))
  | PStr s => Ok (chars s)
  | _ => Raise TypeError
  end.

(** Whether a value can be put in a [set]. *)
Definition py_hashable (v : pyvalue) : bool :=
  match v with
  | PList _ | PDict _ => false
  | _ => true
  end.

(* ===================================================================== *)
(** ** HTTP requests *)
(* ===================================================================== *)

Inductive http_method : Type := GET | POST | PATCH.

(** The endpoints the client formats.  An id is kept as the value that the
    f-string interpolates. *)
Inductive endpoint : Type :=
| Workspaces                                            (* /workspaces *)
| WorkspaceDocs (workspace_id : pyvalue)                (* /workspaces/{}/docs *)
| DocTables (doc_id : pyvalue)                          (* /docs/{}/tables *)
| TableColumns (doc_id : pyvalue) (table_id : string)   (* /docs/{}/tables/{}/columns *)
| TableRecords (doc_id : pyvalue) (table_id : string).  (* /docs/{}/tables/{}/records *)

Record request := mk_request {
  req_method : http_method;
  req_base_url : string;
  req_endpoint : endpoint;
  req_headers : dict string;
  req_json : option pyvalue
}.

(** What one call of [requests.request] gives back: it raises, or it
    returns a response with a status code and a body that may or may not
    decode as JSON. *)
Inductive reply : Type :=
| TransportError
| Response (status_code : Z) (body : option pyvalue).

(** [response.raise_for_status()] raises for 4xx and 5xx. *)
Definition is_error_status (status : Z) : bool :=
  (400 <=? status)%Z && (status <? 600)%Z.

(* ===================================================================== *)
(** ** GristClient *)
(* ===================================================================== *)

Fixpoint rstrip_slash (s : string) : string :=
  match s with
  | EmptyString => EmptyString
  | String c s' =>
      match rstrip_slash s' with
      | EmptyString => if Ascii.eqb c "/" then EmptyString else String c EmptyString
      | t => String c t
      end
  end.

Record GristClient := mk_client {
  api_key : string;
  server : string;
  org : string;
  base_url : string;
  headers : dict string
}.

(** [GristClient.__init__] *)
Definition GristClient_init (api_key server org : string) : GristClient :=
  let server := rstrip_slash server in
  {| api_key := api_key;
     server := server;
     org := org;
     base_url := (server ++ "/api")%string;
     headers := [("Authorization", ("Bearer " ++ api_key)%string);
                 ("Content-Type", "application/json")] |}.

(** A column definition, [{"id": ..., "type": ...}] with the "type" key
    optional.  Ids and types are strings, as in the docstring of
    [create_table]; a definition without an "id" key, on which the source
    raises [KeyError], is not a value of this type. *)
Record column := mk_column {
  col_id : string;
  col_type : option string
}.

(** [col.get("type", "Text")] *)
Definition column_type (col : column) : string :=
  match col_type col with
  | Some t => t
  | None => "Text"
  end.

(** [{"type": col.get("type", "Text")}] *)
Definition column_entry (col : column) : pyvalue :=
  PDict [("type", PStr (column_type col))].

Section Client.
(** The remote side, and the HTTP library call that reaches it. *)
Variable World : Type.
Variable requests_request : request -> World -> reply * World.

Record state := mk_state {
  remote : World;
  trace : list (request * reply)
}.

Definition M (A : Type) : Type := state -> result A * state.

Definition ret {A} (a : A) : M A := fun s => (Ok a, s).

Definition raise {A} (e : exn) : M A := fun s => (Raise e, s).

Definition bind {A B} (m : M A) (k : A -> M B) : M B :=
  fun s =>
    match m s with
    | (Ok a, s') => k a s'
    | (Raise e, s') => (Raise e, s')
    end.

Definition lift {A} (r : result A) : M A := fun s => (r, s).

Notation "x <- m ;; k" := (bind m (fun x => k))
  (at level 61, m at next level, right associativity).
Notation "m ;;; k" := (bind m (fun _ => k))
  (at level 61, right associativity).

Variable self : GristClient.

(** The arguments of the call [requests.request(method, url,
    headers=self.headers, json=data)]. *)
Definition build_request (method : http_method) (ep : endpoint)
    (data : option pyvalue) : request :=
  {| req_method := method; req_base_url := base_url self;
     req_endpoint := ep; req_headers := headers self;
     req_json := data |}.

Definition _request (method : http_method) (ep : endpoint)
    (data : option pyvalue) : M pyvalue :=
  fun s =>
    let req := build_request method ep data in
    let (r, w) := requests_request req (remote s) in
    let s' := {| remote := w; trace := trace s ++ [(req, r)] |} in
    match r with
    | TransportError => (Raise RequestException, s')
    | Response status body =>
        if is_error_status status then (Raise (HTTPError status), s')
        else match body with
             | Some v => (Ok v, s')
             | None => (Raise JSONDecodeError, s')
             end
    end.

Definition list_workspaces : M pyvalue :=
  _request GET Workspaces None.

(** The loop of [get_workspace]. *)
Fixpoint find_workspace (workspace_id : string) (workspaces : list pyvalue)
    : result (option pyvalue) :=
  match workspaces with
  | [] => Ok None
  | ws :: rest =>
      match py_get ws "id" with
      | Raise e => Raise e
      | Ok i =>
          if py_opt_eq_str i workspace_id then Ok (Some ws)
          else match py_get ws "name" with
               | Raise e => Raise e
               | Ok n =>
                   if py_opt_eq_str n workspace_id then Ok (Some ws)
                   else find_workspace workspace_id rest
               end
      end
  end.

Definition get_workspace (workspace_id : option string) : M pyvalue :=
  let workspace_id :=
    match workspace_id with
    | None => org self
    | Some w => w
    end in
  workspaces <- list_workspaces ;;
  items <- lift (py_iter workspaces) ;;
  found <- lift (find_workspace workspace_id items) ;;
  match found with
  | Some ws => ret ws
  | None => raise (ValueError ("Workspace '" ++ workspace_id ++ "' not found")%string)
  end.

(** [workspace_id] is [PNone] for Python's [None]. *)
Definition resolve_workspace_id (workspace_id : pyvalue) : M pyvalue :=
  match workspace_id with
  | PNone =>
      workspace <- get_workspace None ;;
      lift (py_getitem workspace "id")
  | _ => ret workspace_id
  end.

Definition list_documents (workspace_id : pyvalue) : M pyvalue :=
  workspace_id <- resolve_workspace_id workspace_id ;;
  _request GET (WorkspaceDocs workspace_id) None.

(** The loop of [get_or_create_document]. *)
Fixpoint find_document (doc_name : string) (docs : list pyvalue)
    : result (option pyvalue) :=
  match docs with
  | [] => Ok None
  | doc :: rest =>
      match py_get doc "name" with
      | Raise e => Raise e
      | Ok n =>
          if py_opt_eq_str n doc_name then Ok (Some doc)
          else find_document doc_name rest
      end
  end.

Definition get_or_create_document (doc_name : string) (workspace_id : pyvalue)
    : M pyvalue :=
  workspace_id <- resolve_workspace_id workspace_id ;;
  docs <- list_documents workspace_id ;;
  items <- lift (py_iter docs) ;;
  found <- lift (find_document doc_name items) ;;
  match found with
  | Some doc => ret doc
  | None =>
      _request POST (WorkspaceDocs workspace_id)
        (Some (PDict [("name", PStr doc_name)]))
  end.

Definition list_tables (doc_id : pyvalue) : M (list string) :=
  response <- _request GET (DocTables doc_id) None ;;
  lift (py_keys response).

Definition get_table_schema (doc_id : pyvalue) (table_id : string) : M pyvalue :=
  _request GET (TableColumns doc_id table_id) None.

(** The [columns_data] dict of [create_table]. *)
Definition columns_data (columns : list column) : dict pyvalue :=
  fold_left (fun acc col => dict_set (col_id col) (column_entry col) acc)
    columns [].

Definition create_table (doc_id : pyvalue) (table_id : string)
    (columns : list column) : M pyvalue :=
  _request POST (DocTables doc_id)
    (Some (PDict [("tables",
       PList [PDict [("id", PStr table_id);
                     ("columns", PDict (columns_data columns))]])])).

(** [{col["id"] for col in existing_schema.get("columns", [])}]; the set is
    kept as the list of its elements. *)
Fixpoint existing_ids (cols : list pyvalue) : result (list pyvalue) :=
  match cols with
  | [] => Ok []
  | col :: rest =>
      match py_getitem col "id" with
      | Raise e => Raise e
      | Ok i =>
          if py_hashable i then
            match existing_ids rest with
            | Raise e => Raise e
            | Ok ids => Ok (i :: ids)
            end
          else Raise TypeError
      end
  end.

(** [x in existing_cols] for a string [x]. *)
Definition id_in (x : string) (existing_cols : list pyvalue) : bool :=
  existsb (fun v => py_eq_str v x) existing_cols.

(** The [new_cols] dict of [ensure_table]. *)
Definition new_cols (existing_cols : list pyvalue) (columns : list column)
    : dict pyvalue :=
  fold_left
    (fun acc col =>
       if negb (id_in (col_id col) existing_cols)
       then dict_set (col_id col) (column_entry col) acc
       else acc)
    columns [].

Definition ensure_table (doc_id : pyvalue) (table_id : string)
    (columns : list column) : M unit :=
  tables <- list_tables doc_id ;;
  if negb (str_in table_id tables) then
    create_table doc_id table_id columns ;;; ret tt
  else
    existing_schema <- get_table_schema doc_id table_id ;;
    cols <- lift (py_get existing_schema "columns") ;;
    items <- lift (py_iter (match cols with Some c => c | None => PList [] end)) ;;
    existing_cols <- lift (existing_ids items) ;;
    match new_cols existing_cols columns with
    | [] => ret tt
    | added =>
        _request PATCH (TableColumns doc_id table_id)
          (Some (PDict [("columns", PDict added)])) ;;; ret tt
    end.

Definition add_records (doc_id : pyvalue) (table_id : string)
    (records : list (dict pyvalue)) : M pyvalue :=
  _request POST (TableRecords doc_id table_id)
    (Some (PDict [("records", PList (map PDict records))])).

Definition upsert_records (doc_id : pyvalue) (table_id : string)
    (records : list (dict pyvalue)) (key_columns : option (list string))
    : M pyvalue :=
  match key_columns with
  | None => add_records doc_id table_id records
  | Some _ => add_records doc_id table_id records
  end.
End Client.

Arguments remote {World} s.
Arguments trace {World} s.
Arguments mk_state {World} remote trace.

(* ===================================================================== *)
(** ** Column type inference *)
(* ===================================================================== *)

(** [value.replace('Z', '+00:00')] *)
Fixpoint replace_Z (s : string) : string :=
  match s with
  | EmptyString => EmptyString
  | String c s' =>
      if Ascii.eqb c "Z" then ("+00:00" ++ replace_Z s')%string
      else String c (replace_Z s')
  end.

(** The classes the inference tests for. *)
Inductive pytype : Type := t_bool | t_int | t_float | t_datetime | t_str.

(** [isinstance(value, t)]; [bool] is a subclass of [int]. *)
Definition isinstance (value : pyvalue) (t : pytype) : bool :=
  match t, value with
  | t_bool, PBool _ => true
  | t_int, PBool _ => true
  | t_int, PInt _ => true
  | t_float, PFloat _ => true
  | t_datetime, PDatetime _ => true
  | t_str, PStr _ => true
  | _, _ => false
  end.

(** The characters of a [str] value. *)
Definition str_value (value : pyvalue) : string :=
  match value with
  | PStr s => s
  | _ => EmptyString
  end.

Section Inference.
(** [datetime.fromisoformat] of the Python standard library: [None] when
    it raises. *)
Variable fromisoformat : string -> option datetime.

(** The body of the loop: the chain of [isinstance] tests, in the order
    of the source. *)
Definition infer_type (value : pyvalue) : string :=
  if isinstance value t_bool then "Bool"
  else if isinstance value t_int then "Int"
  else if isinstance value t_float then "Numeric"
  else if isinstance value t_datetime then "DateTime"
  else if isinstance value t_str then
    match fromisoformat (replace_Z (str_value value)) with
    | Some _ => "DateTime"
    | None => "Text"
    end
  else "Text".

Definition infer_columns_from_data (data : list (dict pyvalue)) : list column :=
  match data with
  | [] => []
  | sample :: _ =>
      map (fun kv => {| col_id := fst kv; col_type := Some (infer_type (snd kv)) |})
          sample
  end.
End Inference.

(* ===================================================================== *)
(** ** send_to_grist *)
(* ===================================================================== *)

(** The record dicts live in a store; [data] is a list of references into
    it, so that two entries of [data] may be the same object. *)
Definition loc : Type := nat.
Definition heap : Type := loc -> dict pyvalue.

Definition heap_set (h : heap) (l : loc) (d : dict pyvalue) : heap :=
  fun l' => if Nat.eqb l' l then d else h l'.

(** One iteration of the loop that adds the timestamp. *)
Definition stamp (timestamp : string) (h : heap) (record : loc) : heap :=
  if negb (dict_contains "scraped_at" (h record))
  then heap_set h record (dict_set "scraped_at" (PStr timestamp) (h record))
  else h.

Definition stamp_all (timestamp : string) (data : list loc) (h : heap) : heap :=
  fold_left (stamp timestamp) data h.

Section Pipeline.
Variable World : Type.
Variable requests_request : request -> World -> reply * World.
Variable fromisoformat : string -> option datetime.

Notation "x <- m ;; k" := (bind World m (fun x => k))
  (at level 61, m at next level, right associativity).
Notation "m ;;; k" := (bind World m (fun _ => k))
  (at level 61, right associativity).

(** Everything [send_to_grist] does between building the client and
    reading the clock; the result is [doc["id"]]. *)
Definition prepare_table (client : GristClient) (data : list (dict pyvalue))
    (doc_name table_name : string) : M World pyvalue :=
  doc <- get_or_create_document World requests_request client doc_name PNone ;;
  doc_id <- lift World (py_getitem doc "id") ;;
  let columns := infer_columns_from_data fromisoformat data in
  ensure_table World requests_request client doc_id table_name columns ;;;
  (if negb (str_in "scraped_at" (map col_id columns))
   then ensure_table World requests_request client doc_id table_name
          [{| col_id := "scraped_at"; col_type := Some "DateTime" |}]
   else ret World tt) ;;;
  ret World doc_id.

(** [timestamp] is [datetime.now().isoformat()].  The function returns its
    result, the store after the call and the final state. *)
Definition send_to_grist (data : list loc) (api_key server doc_name table_name : string)
    (org : string) (upsert : bool) (key_columns : option (list string))
    (timestamp : string) (h : heap) (s : state World)
    : result (option pyvalue) * heap * state World :=
  match data with
  | [] => (Ok None, h, s)
  | _ :: _ =>
      let client := GristClient_init api_key server org in
      match prepare_table client (map h data) doc_name table_name s with
      | (Raise e, s1) => (Raise e, h, s1)
      | (Ok doc_id, s1) =>
          let h' := stamp_all timestamp data h in
          let upload :=
            if upsert
            then upsert_records World requests_request client doc_id table_name
                   (map h' data) key_columns
            else add_records World requests_request client doc_id table_name
                   (map h' data) in
          match upload s1 with
          | (Ok v, s2) => (Ok (Some v), h', s2)
          | (Raise e, s2) => (Raise e, h', s2)
          end
      end
  end.
End Pipeline.

(* ===================================================================== *)
(** ** The remote side *)
(* ===================================================================== *)

(** A Grist server as the client assumes it: documents addressed by id, each
    with tables addressed by id; the replies have the shapes the client
    reads ([/tables] answers a JSON object keyed by table id, [/columns] an
    object with a "columns" list) and ids are stored as they are sent. *)
Module Grist.

Record table := mk_table {
  tbl_columns : dict string;              (* column id -> type *)
  tbl_records : list (dict pyvalue)
}.

Record document := mk_document {
  d_name : string;
  d_tables : dict table
}.

Record workspace := mk_workspace {
  ws_id : Z;
  ws_name : string;
  ws_docs : list string                   (* ids of its documents *)
}.

Record grist := mk_grist {
  workspaces : list workspace;
  docs : dict document;
  next_doc : nat
}.

Definition str_of_Z (n : Z) : string := NilZero.string_of_int (Z.to_int n).

Definition ok (body : pyvalue) : reply := Response 200 (Some body).
Definition err (status : Z) : reply :=
  Response status (Some (PDict [("error", PStr "request failed")])).

Definition workspace_json (w : workspace) : pyvalue :=
  PDict [("id", PInt (ws_id w)); ("name", PStr (ws_name w))].

Definition document_json (g : grist) (id : string) : list pyvalue :=
  match dict_get id (docs g) with
  | Some d => [PDict [("id", PStr id); ("name", PStr (d_name d))]]
  | None => []
  end.

Definition column_json (c : string * string) : pyvalue :=
  PDict [("id", PStr (fst c)); ("fields", PDict [("type", PStr (snd c))])].

Definition schema_json (t : table) : pyvalue :=
  PDict [("columns", PList (map column_json (tbl_columns t)))].

(** Which workspace a path segment names. *)
Definition names_workspace (wid : pyvalue) (w : workspace) : bool :=
  match wid with
  | PInt n => Z.eqb n (ws_id w)
  | PStr s => String.eqb s (str_of_Z (ws_id w))
  | _ => false
  end.

Definition find_doc (g : grist) (doc_id : pyvalue) : option (string * document) :=
  match doc_id with
  | PStr d =>
      match dict_get d (docs g) with
      | Some doc => Some (d, doc)
      | None => None
      end
  | _ => None
  end.

(** [{id: {"type": t}, ...}] read back as column id -> type. *)
Fixpoint decode_columns (cols : dict pyvalue) : option (dict string) :=
  match cols with
  | [] => Some []
  | (k, PDict e) :: rest =>
      match dict_get "type" e, decode_columns rest with
      | Some (PStr ty), Some r => Some ((k, ty) :: r)
      | _, _ => None
      end
  | _ => None
  end.

Fixpoint decode_records (recs : list pyvalue) : option (list (dict pyvalue)) :=
  match recs with
  | [] => Some []
  | PDict r :: rest =>
      match decode_records rest with
      | Some rs => Some (r :: rs)
      | None => None
      end
  | _ => None
  end.

(** One entry of the "tables" list of a table-creation request. *)
Definition add_table (tables : option (dict table)) (spec : pyvalue)
    : option (dict table) :=
  match tables, spec with
  | Some ts, PDict t =>
      match dict_get "id" t, dict_get "columns" t with
      | Some (PStr tid), Some (PDict cols) =>
          match dict_get tid ts, decode_columns cols with
          | None, Some cs =>
              Some (dict_set tid {| tbl_columns := cs; tbl_records := [] |} ts)
          | _, _ => None
          end
      | _, _ => None
      end
  | _, _ => None
  end.

Definition set_tables (g : grist) (d : string) (doc : document) (ts : dict table)
    : grist :=
  {| workspaces := workspaces g;
     docs := dict_set d {| d_name := d_name doc; d_tables := ts |} (docs g);
     next_doc := next_doc g |}.

Definition record_ids (first count : nat) : pyvalue :=
  PList (map (fun i => PDict [("id", PInt (Z.of_nat i))]) (seq (S first) count)).

Definition serve (req : request) (g : grist) : reply * grist :=
  match req_method req, req_endpoint req, req_json req with
  | GET, Workspaces, _ =>
      (ok (PList (map workspace_json (workspaces g))), g)
  | GET, WorkspaceDocs wid, _ =>
      match find (names_workspace wid) (workspaces g) with
      | Some w => (ok (PList (flat_map (document_json g) (ws_docs w))), g)
      | None => (err 404, g)
      end
  | POST, WorkspaceDocs wid, Some (PDict p) =>
      match find (names_workspace wid) (workspaces g), dict_get "name" p with
      | Some w, Some (PStr name) =>
          let id := ("doc" ++ NilEmpty.string_of_uint (Nat.to_uint (next_doc g)))%string in
          match dict_get id (docs g) with
          | Some _ => (err 500, g)
          | None =>
              (ok (PDict [("id", PStr id); ("name", PStr name)]),
               {| workspaces :=
                    map (fun w' =>
                           if Z.eqb (ws_id w') (ws_id w)
                           then {| ws_id := ws_id w'; ws_name := ws_name w';
                                   ws_docs := ws_docs w' ++ [id] |}
                           else w') (workspaces g);
                  docs := dict_set id {| d_name := name; d_tables := [] |} (docs g);
                  next_doc := S (next_doc g) |})
          end
      | None, _ => (err 404, g)
      | _, _ => (err 400, g)
      end
  | GET, DocTables doc_id, _ =>
      match find_doc g doc_id with
      | Some (_, doc) =>
          (ok (PDict (map (fun kt => (fst kt, schema_json (snd kt))) (d_tables doc))), g)
      | None => (err 404, g)
      end
  | POST, DocTables doc_id, Some (PDict p) =>
      match find_doc g doc_id, dict_get "tables" p with
      | Some (d, doc), Some (PList specs) =>
          match fold_left add_table specs (Some (d_tables doc)) with
          | Some ts => (ok (PDict [("tables", PList [])]), set_tables g d doc ts)
          | None => (err 400, g)
          end
      | None, _ => (err 404, g)
      | _, _ => (err 400, g)
      end
  | GET, TableColumns doc_id tid, _ =>
      match find_doc g doc_id with
      | Some (_, doc) =>
          match dict_get tid (d_tables doc) with
          | Some t => (ok (schema_json t), g)
          | None => (err 404, g)
          end
      | None => (err 404, g)
      end
  | PATCH, TableColumns doc_id tid, Some (PDict p) =>
      match find_doc g doc_id with
      | Some (d, doc) =>
          match dict_get tid (d_tables doc), dict_get "columns" p with
          | Some t, Some (PDict cols) =>
              match decode_columns cols with
              | Some cs =>
                  (ok PNone,
                   set_tables g d doc
                     (dict_set tid
                        {| tbl_columns := dict_update cs (tbl_columns t);
                           tbl_records := tbl_records t |} (d_tables doc)))
              | None => (err 400, g)
              end
          | None, _ => (err 404, g)
          | _, _ => (err 400, g)
          end
      | None => (err 404, g)
      end
  | POST, TableRecords doc_id tid, Some (PDict p) =>
      match find_doc g doc_id with
      | Some (d, doc) =>
          match dict_get tid (d_tables doc), dict_get "records" p with
          | Some t, Some (PList recs) =>
              match decode_records recs with
              | Some rs =>
                  (ok (PDict [("records",
                         record_ids (length (tbl_records t)) (length rs))]),
                   set_tables g d doc
                     (dict_set tid
                        {| tbl_columns := tbl_columns t;
                           tbl_records := tbl_records t ++ rs |} (d_tables doc)))
              | None => (err 400, g)
              end
          | None, _ => (err 404, g)
          | _, _ => (err 400, g)
          end
      | None => (err 404, g)
      end
  | _, _, _ => (err 400, g)
  end.

(** The columns of a table of the remote state, when it exists. *)
Definition table_of (g : grist) (d tid : string) : option table :=
  match dict_get d (docs g) with
  | Some doc => dict_get tid (d_tables doc)
  | None => None
  end.

End Grist.

(* ===================================================================== *)
(** ** The sample-board generators *)
(* ===================================================================== *)

(** A spreadsheet file is a list of named sheets, each a list of rows; the
    file system maps a file name to the workbook last written under it.
    [create_sample_data] and [create_msm_sample_data] draw their records
    from [random]; the records they return are an argument here.  A cell
    text that contains quotation marks is written with [quoted]. *)
Module Boards.

Definition row : Type := dict pyvalue.

Record sheet := mk_sheet {
  sheet_name : string;
  sheet_rows : list row
}.

Definition workbook : Type := list sheet.
Definition files : Type := dict workbook.

(** [df.to_excel(writer, sheet_name=name, index=False)] *)
Definition to_excel (df : list row) (name : string) (writer : workbook) : workbook :=
  writer ++ [{| sheet_name := name; sheet_rows := df |}].

Definition shift (date time start_time end_time client employee location
    product bill_rate pay_rate status : string) : row :=
  [("date", PStr date); ("time", PStr time); ("start_time", PStr start_time);
   ("end_time", PStr end_time); ("client", PStr client);
   ("employee", PStr employee); ("location", PStr location);
   ("product", PStr product); ("bill_rate", PStr bill_rate);
   ("pay_rate", PStr pay_rate); ("status", PStr status)].

(** [s] between two quotation marks (character 34). *)
Definition quoted (s : string) : string :=
  (String (ascii_of_nat 34) s ++ String (ascii_of_nat 34) EmptyString)%string.

Definition mapping (name type description : string) : row :=
  [("Column Name", PStr name); ("Monday.com Type", PStr type);
   ("Description", PStr description)].

Definition instruction (step : Z) (action details : string) : row :=
  [("Step", PInt step); ("Action", PStr action); ("Details", PStr details)].

Module Monday.
Definition sample_data : list row :=
  [shift "2025-09-01" "6:40 AM - 9:40 AM" "6:40 AM" "9:40 AM" "Smith, Tony"
     "Nolen, Carlos" "TN - Memphis" "CHOICES Personal Care (T1019)"
     "$26.36" "$13.00" "Completed";
   shift "2025-09-01" "7:00 AM - 7:00 PM" "7:00 AM" "7:00 PM" "Smith, Bryce"
     "Johnson, Sarah" "TN - Nashville" "Home Health Aide (HHA)"
     "$28.50" "$15.00" "Assigned";
   shift "2025-09-02" "8:00 AM - 12:00 PM" "8:00 AM" "12:00 PM" "Davis, Mary"
     EmptyString "TN - Knoxville" "Personal Care Services"
     "$25.00" "$12.50" "Open"].

Definition additional_rows : list row :=
  [shift "2025-09-02" "2:00 PM - 6:00 PM" "2:00 PM" "6:00 PM" "Wilson, John"
     "Brown, Michael" "TN - Chattanooga" "Companion Care"
     "$22.00" "$11.00" "Completed";
   shift "2025-09-03" "9:00 AM - 5:00 PM" "9:00 AM" "5:00 PM" "Taylor, Lisa"
     "Garcia, Maria" "TN - Memphis" "Skilled Nursing"
     "$35.00" "$18.00" "Assigned"].

Definition column_mapping : list row :=
[mapping "date" "Date" "Shift date (YYYY-MM-DD format)";
 mapping "time" "Text"
   ("Full time range (e.g., " ++ quoted "6:40 AM - 9:40 AM" ++ ")")%string;
 mapping "start_time" "Text"
   ("Start time (e.g., " ++ quoted "6:40 AM" ++ ")")%string;
 mapping "end_time" "Text"
   ("End time (e.g., " ++ quoted "9:40 AM" ++ ")")%string;
 mapping "client" "Text"
   ("Client name (e.g., " ++ quoted "Smith, Tony" ++ ")")%string;
 mapping "employee" "Text"
   ("Employee name (e.g., " ++ quoted "Nolen, Carlos" ++ ")")%string;
 mapping "location" "Text"
   ("Work location (e.g., " ++ quoted "TN - Memphis" ++ ")")%string;
 mapping "product" "Text" "Service/product type";
 mapping "bill_rate" "Text"
   ("Billing rate (e.g., " ++ quoted "$26.36" ++ ")")%string;
 mapping "pay_rate" "Text"
   ("Pay rate (e.g., " ++ quoted "$13.00" ++ ")")%string;
 mapping "status" "Status"
   "Shift status: Open (red), Assigned (green), Completed (blue)"].

Definition instructions : list row :=
[instruction 1 "Download this Excel file" "Save monday_board_import.xlsx to your computer";
 instruction 2 "Go to Monday.com" "Log into your Monday.com workspace";
 instruction 3 "Create new board"
   ("Click " ++ quoted "+" ++ " to create a new board")%string;
 instruction 4 "Import from Excel"
   ("Choose " ++ quoted "Import from Excel" ++ " option")%string;
 instruction 5 "Upload file" "Upload this Excel file";
 instruction 6 "Name the board" ("Name it " ++ quoted "ABS Shift Data")%string;
 instruction 7 "Map columns" "Use the Column Mapping sheet to set correct column types";
 instruction 8 "Set status colors" "Configure status column: Open=red, Assigned=green, Completed=blue";
 instruction 9 "Get board ID" "Copy the board ID from the URL and add to .env as MONDAY_BOARD_ID";
 instruction 10 "Test integration"
   ("Run " ++ quoted "npm run sync-monday" ++ " to test")%string].

Definition filename : string := "monday_board_import.xlsx".

(** The records the script holds in memory: [pd.concat([df, ...])]. *)
Definition df : list row := sample_data ++ additional_rows.

Definition create_monday_import_file (fs : files) : string * files :=
  let writer := [] in
  let writer := to_excel df "ABS Shift Data" writer in
  let writer := to_excel column_mapping "Column Mapping" writer in
  let writer := to_excel instructions "Instructions" writer in
  (filename, dict_set filename writer fs).
End Monday.

Module Sample.
Definition output_file : string := "monday_board_import.xlsx".

(** [main], with [sample_data = create_sample_data()]. *)
Definition main (sample_data : list row) (fs : files) : files :=
  let df := sample_data in
  dict_set output_file (to_excel df "ABS Shift Data" []) fs.
End Sample.

Module Msm.
Definition output_file : string := "msm_board_import.xlsx".

(** [main], with [sample_data = create_msm_sample_data()]. *)
Definition main (sample_data : list row) (fs : files) : files :=
  let df := sample_data in
  dict_set output_file (to_excel df "MSM Data" []) fs.
End Msm.

Inductive script : Type := create_monday_board | create_sample_board | create_msm_board.

(** The file a script writes, the name of its data sheet and the records
    it generated. *)
Definition written_file (sc : script) : string :=
  match sc with
  | create_monday_board => Monday.filename
  | create_sample_board => Sample.output_file
  | create_msm_board => Msm.output_file
  end.

Definition data_sheet (sc : script) : string :=
  match sc with
  | create_monday_board => "ABS Shift Data"
  | create_sample_board => "ABS Shift Data"
  | create_msm_board => "MSM Data"
  end.

Definition records_of (sc : script) (generated : list row) : list row :=
  match sc with
  | create_monday_board => Monday.df
  | _ => generated
  end.

Definition run (sc : script) (generated : list row) (fs : files) : files :=
  match sc with
  | create_monday_board => snd (Monday.create_monday_import_file fs)
  | create_sample_board => Sample.main generated fs
  | create_msm_board => Msm.main generated fs
  end.

(** The sheets of a workbook other than the data sheet. *)
Definition auxiliary_sheets (data_name : string) (wb : workbook) : list sheet :=
  filter (fun sh => negb (String.eqb (sheet_name sh) data_name)) wb.

End Boards.

(* ===================================================================== *)
(** ** Definitions used to state the properties *)
(* ===================================================================== *)

(** "Replacing every 'Z' with '+00:00'", said on the characters of the
    string: each character 'Z' gives the six characters of "+00:00", every
    other character gives itself. *)
Definition replace_every_Z (s : string) : string :=
  string_of_list_ascii
    (flat_map
       (fun c => if Ascii.eqb c "Z" then list_ascii_of_string "+00:00" else [c])
       (list_ascii_of_string s)).

(** The type the specification gives to a value. *)
Definition specified_type (fromisoformat : string -> option datetime)
    (value : pyvalue) : string :=
  match value with
  | PBool _ => "Bool"
  | PInt _ => "Int"
  | PFloat _ => "Numeric"
  | PDatetime _ => "DateTime"
  | PStr s =>
      match fromisoformat (replace_every_Z s) with
      | Some _ => "DateTime"
      | None => "Text"
      end
  | PNone | PList _ | PDict _ => "Text"
  end.

(** The type a column definition declares: the value of its "type" key,
    "Text" when it has none. *)
Definition declared_type (col : column) : string :=
  match col_type col with
  | Some ty => ty
  | None => "Text"
  end.

(** The declared type of the last definition with the given id. *)
Fixpoint last_declared_type (id : string) (columns : list column) : option string :=
  match columns with
  | [] => None
  | col :: rest =>
      match last_declared_type id rest with
      | Some ty => Some ty
      | None => if String.eqb (col_id col) id then Some (declared_type col) else None
      end
  end.

(** Whether [s] has the shape of [pattern], in which 'd' stands for a
    decimal digit and every other character for itself. *)
Fixpoint has_shape (pattern s : string) : bool :=
  match pattern, s with
  | EmptyString, EmptyString => true
  | String p pattern', String c s' =>
      (if Ascii.eqb p "d"
       then (48 <=? nat_of_ascii c)%nat && (nat_of_ascii c <=? 57)%nat
       else Ascii.eqb p c)
      && has_shape pattern' s'
  | _, _ => false
  end.

(** An acceptor for the examples: dates, and timestamps to the second with
    the offset "+00:00". *)
Definition date_or_utc_timestamp (s : string) : option datetime :=
  if has_shape "dddd-dd-dd" s || has_shape "dddd-dd-ddTdd:dd:dd+00:00" s
  then Some (mk_datetime 0 0 0 0 0 0 0 None)
  else None.

(** A reply on which [_request] returns: a response without an error
    status whose body decodes. *)
Definition reply_ok (r : reply) : bool :=
  match r with
  | Response status (Some _) => negb (is_error_status status)
  | _ => false
  end.

Definition event_ok (ev : request * reply) : bool := reply_ok (snd ev).

(** A computation stops at the first call that fails: of the calls it
    makes, only the last can have failed, and none has when it returns. *)
Definition fail_fast {World A : Type} (m : M World A) : Prop :=
  forall s,
    exists evs,
      trace (snd (m s)) = trace s ++ evs
      /\ forallb event_ok (removelast evs) = true
      /\ ((exists a, fst (m s) = Ok a) -> forallb event_ok evs = true).

(** The sentence "[_request] raises if and only if the response has a
    non-success status". *)
Definition raises_iff_error_status : Prop :=
  forall World (requests_request : request -> World -> reply * World)
         self method ep data (s : state World),
    (exists e, fst (_request World requests_request self method ep data s) = Raise e)
    <->
    (exists status body,
        fst (requests_request (build_request self method ep data) (remote s))
        = Response status body
        /\ is_error_status status = true).

(** A transport whose every response is a 200 with an empty body. *)
Definition empty_200 (req : request) (w : unit) : reply * unit :=
  (Response 200 None, w).

(** An acceptor for the examples: dates written YYYY-MM-DD with four, two
    and two decimal digits. *)
Definition is_digit (c : ascii) : bool :=
  (48 <=? nat_of_ascii c)%nat && (nat_of_ascii c <=? 57)%nat.

Definition date_only (s : string) : option datetime :=
  match s with
  | String y1 (String y2 (String y3 (String y4 (String "-"
      (String m1 (String m2 (String "-" (String d1 (String d2 EmptyString))))))))) =>
      if forallb is_digit [y1; y2; y3; y4; m1; m2; d1; d2]
      then Some (mk_datetime 0 0 0 0 0 0 0 None)
      else None
  | _ => None
  end.

(** The wire form [{id: {"type": t}, ...}] of a dict of column types. *)
Definition encode_types (d : dict string) : dict pyvalue :=
  map (fun kv => (fst kv, PDict [("type", PStr (snd kv))])) d.

(** The id and the type (with its default) of each required column. *)
Definition id_types (columns : list column) : list (string * string) :=
  map (fun col => (col_id col, column_type col)) columns.

(** The type required for a column id: that of the last definition with
    this id, "Text" when that definition has no "type" key. *)
Definition required_type (id : string) (columns : list column) : option string :=
  assoc_last id (id_types columns).

(** The required columns whose id is not among the stored ones. *)
Definition missing_columns (stored : dict string) (columns : list column)
    : list column :=
  filter (fun col => negb (dict_contains (col_id col) stored)) columns.

(** Method, endpoint and payload of each call of a trace. *)
Definition calls (evs : list (request * reply))
    : list (http_method * endpoint * option pyvalue) :=
  map (fun ev => (req_method (fst ev), req_endpoint (fst ev), req_json (fst ev))) evs.

Definition is_write (m : http_method) : bool :=
  match m with
  | GET => false
  | POST | PATCH => true
  end.

(** The calls that can change the remote side. *)
Definition write_calls (cs : list (http_method * endpoint * option pyvalue))
    : list (http_method * endpoint * option pyvalue) :=
  filter (fun c => is_write (fst (fst c))) cs.

(** A remote state, a client and a list of required columns for the
    examples. *)
Definition example_remote : Grist.grist :=
  {| Grist.workspaces :=
       [{| Grist.ws_id := 7; Grist.ws_name := "brightstar";
           Grist.ws_docs := ["d1"] |}];
     Grist.docs :=
       [("d1",
         {| Grist.d_name := "ABS_Scraper_Data";
            Grist.d_tables :=
              [("MSM_Results",
                {| Grist.tbl_columns := [("date", "DateTime")];
                   Grist.tbl_records := [[("date", PStr "2025-09-01")]] |})] |})];
     Grist.next_doc := 0 |}.

Definition example_client : GristClient :=
  GristClient_init "key" "https://grist.example.com/" "brightstar".

Definition example_columns : list column :=
  [{| col_id := "date"; col_type := Some "DateTime" |};
   {| col_id := "hours"; col_type := Some "Numeric" |};
   {| col_id := "note"; col_type := None |}].

(** The workspace whose documents [get_or_create_document] lists: the one
    the server finds for [workspace_id], or, when [workspace_id] is [None],
    for the id of the first workspace named like the client's org. *)
Definition resolved_workspace (g : Grist.grist) (self : GristClient)
    (workspace_id : pyvalue) : option Grist.workspace :=
  match workspace_id with
  | PNone =>
      match find (fun w => String.eqb (Grist.ws_name w) (org self))
                 (Grist.workspaces g) with
      | Some w =>
          find (Grist.names_workspace (PInt (Grist.ws_id w))) (Grist.workspaces g)
      | None => None
      end
  | _ => find (Grist.names_workspace workspace_id) (Grist.workspaces g)
  end.

(** The documents of a workspace, in the order the server lists them. *)
Definition listing (g : Grist.grist) (w : Grist.workspace) : list pyvalue :=
  flat_map (Grist.document_json g) (Grist.ws_docs w).

(** [doc.get("name") == doc_name] for a listed document. *)
Definition has_name (doc_name : string) (doc : pyvalue) : bool :=
  match doc with
  | PDict d => py_opt_eq_str (dict_get "name" d) doc_name
  | _ => false
  end.

(** A store for the examples: object 0 has no timestamp, every other
    object has one. *)
Definition example_heap : heap :=
  fun l =>
    if Nat.eqb l 0
    then [("date", PStr "2025-09-01")]
    else [("date", PStr "2025-09-02"); ("scraped_at", PStr "2025-09-03T08:00:00")].

(** The sentence "each of the three scripts writes its records to a
    spreadsheet file together with auxiliary reference sheets". *)
Definition every_script_writes_auxiliary_sheets : Prop :=
  forall (sc : Boards.script) (generated : list Boards.row) (fs : Boards.files),
    exists wb,
      dict_get (Boards.written_file sc) (Boards.run sc generated fs) = Some wb
      /\ In {| Boards.sheet_name := Boards.data_sheet sc;
               Boards.sheet_rows := Boards.records_of sc generated |} wb
      /\ Boards.auxiliary_sheets (Boards.data_sheet sc) wb <> [].

(* ===================================================================== *)
(** ** The loaders of [grist_integration.py] and the script of
       [grist_client.py] *)
(* ===================================================================== *)

(** The first value of a dict that is a list: the loop
    [for key, value in data.items(): if isinstance(value, list): return value]. *)
Fixpoint first_list_value (items : dict pyvalue) : option (list pyvalue) :=
  match items with
  | [] => None
  | (_, PList l) :: _ => Some l
  | _ :: rest => first_list_value rest
  end.

(** [load_json_data], from the value [data] that [json.load(f)] returns. *)
Definition load_json_data (data : pyvalue) : list pyvalue :=
  match data with
  | PDict items =>
      match first_list_value items with
      | Some l => l
      | None => [data]
      end
  | PList l => l
  | _ => [data]
  end.




(** How the script at the end of [grist_client.py] ends. *)
Inductive script_exit : Type :=
| SysExit (code : Z)       (* sys.exit(code), after the usage message *)
| IndexError               (* sys.argv[4] is out of range *)
| Uncaught (e : exn)       (* an exception of the client reaches the top *)
| Completed.

Section ClientScript.
Variable World : Type.
Variable requests_request : request -> World -> reply * World.
Variable fromisoformat : string -> option datetime.

Notation "x <- m ;; k" := (bind World m (fun x => k))
  (at level 61, m at next level, right associativity).
Notation "m ;;; k" := (bind World m (fun _ => k))
  (at level 61, right associativity).

(** The example data of the script; [now1] and [now2] are the two values of
    [datetime.now().isoformat()]. *)
Definition script_sample_data (now1 now2 : string) : list (dict pyvalue) :=
  [[("timestamp", PStr now1); ("value", PInt 123); ("status", PStr "active")];
   [("timestamp", PStr now2); ("value", PInt 456); ("status", PStr "inactive")]].

(** The [if __name__ == "__main__":] block, from [sys.argv]. *)
Definition client_main (argv : list string) (now1 now2 : string)
    (s : state World) : script_exit * state World :=
  if (length argv <? 4)%nat then (SysExit 1, s)
  else
    match nth_error argv 1, nth_error argv 2, nth_error argv 3, nth_error argv 4 with
    | Some api_key, Some server, Some doc_name, Some table_name =>
        let client := GristClient_init api_key server "brightstar" in
        let body :=
          doc <- get_or_create_document World requests_request client doc_name PNone ;;
          _ <- lift World (py_getitem doc "name") ;;
          doc_id <- lift World (py_getitem doc "id") ;;
          let sample_data := script_sample_data now1 now2 in
          let columns := infer_columns_from_data fromisoformat sample_data in
          ensure_table World requests_request client doc_id table_name columns ;;;
          add_records World requests_request client doc_id table_name sample_data in
        match body s with
        | (Ok _, s') => (Completed, s')
        | (Raise e, s') => (Uncaught e, s')
        end
    | _, _, _, _ => (IndexError, s)
    end.
End ClientScript.

(* ===================================================================== *)
(** ** Definitions used to state the further properties *)
(* ===================================================================== *)

(** The requests a computation sends satisfy [Q], from any state. *)
Definition emits {World A : Type} (Q : list request -> Prop) (m : M World A) : Prop :=
  forall s,
    exists evs,
      trace (snd (m s)) = trace s ++ evs /\ Q (map fst evs).

(** The sum of the weights of a list of requests. *)
Definition cost (w : request -> nat) (reqs : list request) : nat :=
  list_sum (map w reqs).

(** Every request satisfies [P] and the weights sum to at most [n]. *)
Definition within (P : request -> Prop) (w : request -> nat) (n : nat)
    (reqs : list request) : Prop :=
  Forall P reqs /\ cost w reqs <= n.

Definition write_weight (req : request) : nat :=
  if is_write (req_method req) then 1 else 0.

Definition records_weight (req : request) : nat :=
  match req_endpoint req with
  | TableRecords _ _ => 1
  | _ => 0
  end.

(** A request of the client [self]: it has the client's base URL and
    headers, and a JSON body exactly when it is not a GET. *)
Definition request_of (self : GristClient) (req : request) : Prop :=
  req_base_url req = base_url self
  /\ req_headers req = headers self
  /\ (req_method req = GET <-> req_json req = None).

(** A request about the tables of [doc_id] or the columns of its table
    [table_id]. *)
Definition about_table (doc_id : pyvalue) (table_id : string) (req : request) : Prop :=
  req_endpoint req = DocTables doc_id
  \/ req_endpoint req = TableColumns doc_id table_id.

(** The elements of a list in the order of their first occurrence. *)
Definition first_occurrences (l : list string) : list string :=
  fold_left (fun acc x => if str_in x acc then acc else acc ++ [x]) l [].

(** A string value with every 'Z' written "+00:00". *)
Definition with_offset (v : pyvalue) : pyvalue :=
  match v with
  | PStr s => PStr (replace_Z s)
  | _ => v
  end.

(** [id == name or name == name] in the loop of [get_workspace], for a
    listed workspace that is a dict. *)
Definition workspace_matches (name : string) (ws : pyvalue) : bool :=
  match ws with
  | PDict d =>
      py_opt_eq_str (dict_get "id" d) name || py_opt_eq_str (dict_get "name" d) name
  | _ => false
  end.

Definition is_dict (v : pyvalue) : bool :=
  match v with
  | PDict _ => true
  | _ => false
  end.

(** [n] slashes. *)
Fixpoint slashes (n : nat) : string :=
  match n with
  | O => EmptyString
  | S n' => String "/" (slashes n')
  end.

(** Whether no value of the dict is a list. *)
Definition no_list_value (items : dict pyvalue) : bool :=
  forallb (fun kv => match snd kv with PList _ => false | _ => true end) items.


(** The id the server gives to the next document, and the remote state once
    a document called [name] is created in the workspaces with the id of
    [w]. *)
Definition new_doc_id (g : Grist.grist) : string :=
  ("doc" ++ NilEmpty.string_of_uint (Nat.to_uint (Grist.next_doc g)))%string.

Definition with_new_doc (g : Grist.grist) (w : Grist.workspace) (name : string)
    : Grist.grist :=
  {| Grist.workspaces :=
       map (fun w' =>
              if Z.eqb (Grist.ws_id w') (Grist.ws_id w)
              then {| Grist.ws_id := Grist.ws_id w';
                      Grist.ws_name := Grist.ws_name w';
                      Grist.ws_docs := Grist.ws_docs w' ++ [new_doc_id g] |}
              else w') (Grist.workspaces g);
     Grist.docs :=
       dict_set (new_doc_id g)
         {| Grist.d_name := name; Grist.d_tables := [] |} (Grist.docs g);
     Grist.next_doc := S (Grist.next_doc g) |}.

(* ===================================================================== *)
(** * Properties *)
(* ===================================================================== *)

(** ** Dictionaries *)

Section DictFacts.
Context {V : Type}.
Implicit Types (d : dict V) (k : string) (v : V).

Lemma dict_get_set_eq k v d : dict_get k (dict_set k v d) = Some v.
Proof.
  induction d as [|[k' v'] d IH]; simpl.
  - now rewrite String.eqb_refl.
  - destruct (String.eqb k' k) eqn:E; simpl; rewrite E; auto.
Qed.

Lemma dict_get_set_neq k k' v d :
  k <> k' -> dict_get k' (dict_set k v d) = dict_get k' d.
Proof.
  intros Hne. induction d as [|[k0 v0] d IH]; simpl.
  - destruct (String.eqb_spec k k'); congruence.
  - destruct (String.eqb_spec k0 k); simpl.
    + subst k0. destruct (String.eqb_spec k k'); congruence.
    + now rewrite IH.
Qed.

Lemma dict_get_set k k' v d :
  dict_get k' (dict_set k v d) =
  if String.eqb k k' then Some v else dict_get k' d.
Proof.
  destruct (String.eqb_spec k k').
  - subst. apply dict_get_set_eq.
  - now apply dict_get_set_neq.
Qed.

Lemma dict_keys_set k v d k' :
  In k' (dict_keys (dict_set k v d)) <-> k' = k \/ In k' (dict_keys d).
Proof.
  unfold dict_keys. induction d as [|[k0 v0] d IH]; simpl.
  - intuition.
  - destruct (String.eqb_spec k0 k); simpl.
    + subst. intuition.
    + rewrite IH. intuition.
Qed.

Lemma dict_set_nodup k v d :
  NoDup (dict_keys d) -> NoDup (dict_keys (dict_set k v d)).
Proof.
  unfold dict_keys. induction d as [|[k0 v0] d IH]; simpl; intros H.
  - constructor; [intros [] | constructor].
  - inversion H as [|? ? Hnotin Hd]; subst.
    destruct (String.eqb_spec k0 k); simpl.
    + now constructor.
    + constructor; [|auto].
      intros Hin. apply (dict_keys_set k v d k0) in Hin.
      destruct Hin as [->|Hin]; [congruence | auto].
Qed.

Lemma dict_update_nodup kvs d :
  NoDup (dict_keys d) -> NoDup (dict_keys (dict_update kvs d)).
Proof.
  unfold dict_update. revert d.
  induction kvs as [|[k v] kvs IH]; simpl; intros d H; auto.
  apply IH. now apply dict_set_nodup.
Qed.

Lemma dict_get_In k d : dict_get k d = None -> ~ In k (dict_keys d).
Proof.
  unfold dict_keys. induction d as [|[k0 v0] d IH]; simpl; intros H.
  - tauto.
  - destruct (String.eqb_spec k0 k); [discriminate|].
    intros [?|?]; [congruence | now apply IH].
Qed.

Lemma dict_get_update k kvs d :
  dict_get k (dict_update kvs d) =
  match assoc_last k kvs with
  | Some v => Some v
  | None => dict_get k d
  end.
Proof.
  unfold dict_update. revert d.
  induction kvs as [|[k0 v0] kvs IH]; simpl; intros d; auto.
  rewrite IH. destruct (assoc_last k kvs); auto.
  rewrite dict_get_set. now destruct (String.eqb k0 k).
Qed.

Lemma assoc_last_nodup k d :
  NoDup (dict_keys d) -> assoc_last k d = dict_get k d.
Proof.
  unfold dict_keys. induction d as [|[k0 v0] d IH]; simpl; intros H; auto.
  inversion H as [|? ? Hnotin Hd]; subst.
  rewrite (IH Hd). destruct (String.eqb_spec k0 k).
  - subst. destruct (dict_get k d) eqn:E; auto.
    exfalso. apply Hnotin. clear -E.
    induction d as [|[k1 v1] d IH]; simpl in *; [discriminate|].
    destruct (String.eqb_spec k1 k); auto.
  - now destruct (dict_get k d).
Qed.

Lemma str_in_keys k d : str_in k (dict_keys d) = dict_contains k d.
Proof.
  unfold str_in, dict_contains, dict_keys.
  induction d as [|[k0 v0] d IH]; simpl; auto.
  rewrite String.eqb_sym. destruct (String.eqb k0 k); auto.
Qed.
End DictFacts.

Lemma dict_get_map {V W : Type} (f : V -> W) k (d : dict V) :
  dict_get k (map (fun kv => (fst kv, f (snd kv))) d) = option_map f (dict_get k d).
Proof.
  induction d as [|[k0 v0] d IH]; simpl; auto.
  destruct (String.eqb k0 k); auto.
Qed.

Lemma dict_set_map {V W : Type} (f : V -> W) k v (d : dict V) :
  dict_set k (f v) (map (fun kv => (fst kv, f (snd kv))) d) =
  map (fun kv => (fst kv, f (snd kv))) (dict_set k v d).
Proof.
  induction d as [|[k0 v0] d IH]; simpl; auto.
  destruct (String.eqb k0 k); simpl; auto. now rewrite IH.
Qed.

(** ** Type inference *)

Lemma replace_Z_app a b : replace_Z (a ++ b) = (replace_Z a ++ replace_Z b)%string.
Proof.
  induction a as [|c a IH]; simpl; auto.
  destruct (Ascii.eqb c "Z"); simpl; now rewrite IH.
Qed.

(** Every 'Z' is replaced: none is left in the result. *)
Lemma replace_Z_no_Z s n : String.get n (replace_Z s) <> Some "Z"%char.
Proof.
  revert n. induction s as [|c s IH]; simpl; intros n.
  - discriminate.
  - destruct (Ascii.eqb_spec c "Z") as [Hc|Hc].
    + destruct n as [|[|[|[|[|[|m]]]]]]; simpl; try discriminate. apply IH.
    + destruct n as [|m]; simpl; [congruence | apply IH].
Qed.

(** A string without 'Z' is left as it is. *)
Lemma replace_Z_id s :
  (forall n, String.get n s <> Some "Z"%char) -> replace_Z s = s.
Proof.
  induction s as [|c s IH]; simpl; intros H; auto.
  destruct (Ascii.eqb_spec c "Z") as [Hc|Hc].
  - subst. exfalso. apply (H 0%nat). reflexivity.
  - f_equal. apply IH. intros m. apply (H (S m)).
Qed.

(** C2: for a non-empty list of records, [infer_columns_from_data] returns
    one column definition per key of the first record, in that record's key
    order, each with the key as its id; the records after the first do not
    affect the result. *)
Theorem infer_columns_first_record :
  forall fromisoformat (sample : dict pyvalue) (rest : list (dict pyvalue)),
    map col_id (infer_columns_from_data fromisoformat (sample :: rest))
      = dict_keys sample
    /\ length (infer_columns_from_data fromisoformat (sample :: rest))
      = length sample
    /\ forall rest',
        infer_columns_from_data fromisoformat (sample :: rest')
        = infer_columns_from_data fromisoformat (sample :: rest).
Proof.
  intros f sample rest. simpl. repeat split.
  - unfold dict_keys. rewrite map_map. apply map_ext. reflexivity.
  - apply length_map.
Qed.

Lemma replace_Z_every s : replace_Z s = replace_every_Z s.
Proof.
  unfold replace_every_Z. induction s as [|c s IH]; simpl; auto.
  destruct (Ascii.eqb c "Z"); simpl; now rewrite IH.
Qed.

(** C3: the column of the i-th item [(key, value)] of the first record gets
    type "Bool" for a bool (although a bool is an instance of int), "Int"
    for any other int, "Numeric" for a float, "DateTime" for a datetime and
    for a string that [fromisoformat] accepts after every 'Z' is replaced
    by "+00:00", and "Text" for every other string and value, [None]
    included. *)
Theorem infer_columns_types :
  forall fromisoformat (sample : dict pyvalue) rest i key value,
    (forall b, isinstance (PBool b) t_int = true
               /\ infer_type fromisoformat (PBool b) = "Bool")
    /\ (nth_error sample i = Some (key, value) ->
        nth_error (infer_columns_from_data fromisoformat (sample :: rest)) i
        = Some {| col_id := key;
                  col_type := Some (specified_type fromisoformat value) |}).
Proof.
  intros f sample rest i key value. split.
  - intros b. split; reflexivity.
  - intros H. simpl. rewrite nth_error_map, H. simpl.
    destruct value; try reflexivity.
    unfold infer_type. simpl. now rewrite replace_Z_every.
Qed.

Example infer_columns_types_witness :
  let sample := [("at", PStr "2025-09-01T06:40:00Z"); ("ok", PBool true);
                 ("n", PInt 3); ("who", PStr "Zoe"); ("day", PStr "2025-09-01");
                 ("none", PNone)] in
  infer_columns_from_data date_or_utc_timestamp [sample]
  = [{| col_id := "at"; col_type := Some "DateTime" |};
     {| col_id := "ok"; col_type := Some "Bool" |};
     {| col_id := "n"; col_type := Some "Int" |};
     {| col_id := "who"; col_type := Some "Text" |};
     {| col_id := "day"; col_type := Some "DateTime" |};
     {| col_id := "none"; col_type := Some "Text" |}]
  /\ nth_error (infer_columns_from_data date_or_utc_timestamp [sample]) 0
     = Some {| col_id := "at";
               col_type := Some (specified_type date_or_utc_timestamp
                                   (PStr "2025-09-01T06:40:00Z")) |}
  /\ specified_type date_or_utc_timestamp (PStr "2025-09-01T06:40:00Z") = "DateTime"
  /\ specified_type date_or_utc_timestamp (PStr "Zoe") = "Text".
Proof.
  intros sample. split; [reflexivity|]. split; [|split; reflexivity].
  apply (proj2 (infer_columns_types date_or_utc_timestamp sample []
                  0 "at" (PStr "2025-09-01T06:40:00Z"))).
  reflexivity.
Defined.

(** C10: with an empty data list [send_to_grist] returns [None] with the
    remote side, the trace and the store untouched, and
    [infer_columns_from_data] returns the empty list. *)
Theorem empty_data_no_effect :
  forall World requests_request fromisoformat api_key server doc_name table_name
         org upsert key_columns timestamp h (s : state World),
    send_to_grist World requests_request fromisoformat [] api_key server
      doc_name table_name org upsert key_columns timestamp h s
    = (Ok None, h, s)
    /\ infer_columns_from_data fromisoformat [] = [].
Proof.
  intros. split.
  - unfold send_to_grist. reflexivity.
  - unfold infer_columns_from_data. reflexivity.
Qed.

(** ** The monad and [_request] *)

Section ClientFacts.
Variable World : Type.
Variable requests_request : request -> World -> reply * World.
Variable self : GristClient.

Lemma fail_fast_ret {A} (a : A) : fail_fast (ret World a).
Proof. intros s. exists []. simpl. rewrite app_nil_r. auto. Qed.

Lemma fail_fast_raise {A} e : fail_fast (@raise World A e).
Proof. intros s. exists []. simpl. rewrite app_nil_r. auto. Qed.

Lemma fail_fast_lift {A} (r : result A) : fail_fast (lift World r).
Proof. intros s. exists []. simpl. rewrite app_nil_r. auto. Qed.

Lemma forallb_removelast {A} (f : A -> bool) l :
  forallb f l = true -> forallb f (removelast l) = true.
Proof.
  induction l as [|x l IH]; simpl; auto.
  intros H. apply andb_prop in H as [Hx Hl].
  destruct l; simpl in *; auto. rewrite Hx. auto.
Qed.

Lemma fail_fast_bind {A B} (m : M World A) (k : A -> M World B) :
  fail_fast m -> (forall a, fail_fast (k a)) -> fail_fast (bind World m k).
Proof.
  intros Hm Hk s. unfold bind.
  destruct (Hm s) as (evs1 & Ht1 & Hr1 & Hok1).
  destruct (m s) as [[a|e] s1] eqn:E; simpl in *.
  - destruct (Hk a s1) as (evs2 & Ht2 & Hr2 & Hok2).
    exists (evs1 ++ evs2). rewrite Ht2, Ht1, app_assoc. split; [reflexivity|].
    assert (H1 : forallb event_ok evs1 = true) by (apply Hok1; eauto).
    split.
    + destruct evs2 as [|ev evs2].
      * rewrite app_nil_r. now apply forallb_removelast.
      * rewrite removelast_app by discriminate.
        rewrite forallb_app, H1. exact Hr2.
    + intros Hex. rewrite forallb_app, H1. auto.
  - exists evs1. repeat split; auto. intros [a Ha]. discriminate.
Qed.

Lemma request_run method ep data (s : state World) :
  let req := build_request self method ep data in
  let r := fst (requests_request req (remote s)) in
  let s' := {| remote := snd (requests_request req (remote s));
               trace := trace s ++ [(req, r)] |} in
  _request World requests_request self method ep data s =
  (match r with
   | TransportError => Raise RequestException
   | Response status body =>
       if is_error_status status then Raise (HTTPError status)
       else match body with
            | Some v => Ok v
            | None => Raise JSONDecodeError
            end
   end, s').
Proof.
  unfold _request. simpl.
  destruct (requests_request _ _) as [r w]. simpl.
  destruct r as [|status body]; auto.
  destruct (is_error_status status); auto.
  destruct body; auto.
Qed.

Lemma fail_fast_request method ep data :
  fail_fast (_request World requests_request self method ep data).
Proof.
  intros s. rewrite request_run. simpl.
  eexists. split; [reflexivity|]. simpl. split; auto.
  intros [a Ha]. unfold event_ok. simpl.
  destruct (fst (requests_request _ _)) as [|status body]; [discriminate|].
  simpl. destruct (is_error_status status); [discriminate|].
  destruct body; [reflexivity | discriminate].
Qed.
End ClientFacts.

Create HintDb fail_fast.
#[local] Hint Resolve fail_fast_ret fail_fast_raise fail_fast_lift
  fail_fast_request : fail_fast.

Ltac fail_fast_step :=
  match goal with
  | |- fail_fast (bind _ _ _) => apply fail_fast_bind; [|intros ?]
  | |- fail_fast (match ?x with _ => _ end) => destruct x
  | |- fail_fast (if ?b then _ else _) => destruct b
  | |- fail_fast _ => solve [auto with fail_fast]
  end.

(** C6, as amended: one call of [_request] makes exactly one call of
    [requests.request]; it raises exactly when that call raised, or the
    response has a 4xx/5xx status, or its body does not decode as JSON; and
    every method of the client stops at the first failed call, so that no
    request follows a failure. *)
Theorem request_once_no_retry :
  forall World (requests_request : request -> World -> reply * World)
         (self : GristClient),
    (forall method ep data (s : state World),
        let req := build_request self method ep data in
        let out := _request World requests_request self method ep data s in
        remote (snd out) = snd (requests_request req (remote s))
        /\ trace (snd out) = trace s ++ [(req, fst (requests_request req (remote s)))]
        /\ ((exists e, fst out = Raise e)
            <-> reply_ok (fst (requests_request req (remote s))) = false))
    /\ fail_fast (list_workspaces World requests_request self)
    /\ (forall w, fail_fast (get_workspace World requests_request self w))
    /\ (forall w, fail_fast (list_documents World requests_request self w))
    /\ (forall n w, fail_fast (get_or_create_document World requests_request self n w))
    /\ (forall d, fail_fast (list_tables World requests_request self d))
    /\ (forall d t, fail_fast (get_table_schema World requests_request self d t))
    /\ (forall d t c, fail_fast (create_table World requests_request self d t c))
    /\ (forall d t c, fail_fast (ensure_table World requests_request self d t c))
    /\ (forall d t r, fail_fast (add_records World requests_request self d t r))
    /\ (forall d t r k, fail_fast (upsert_records World requests_request self d t r k)).
Proof.
  intros World rr self.
  assert (Hres : forall w, fail_fast (resolve_workspace_id World rr self w)).
  { intros w. unfold resolve_workspace_id, get_workspace, list_workspaces.
    destruct w; repeat fail_fast_step. }
  split; [|repeat split; intros;
           unfold get_or_create_document, ensure_table, upsert_records,
             list_documents, get_workspace, list_tables, get_table_schema,
             create_table, add_records, list_workspaces;
           repeat first [apply Hres | fail_fast_step]].
  intros method ep data s req out. subst out.
  rewrite request_run. fold req. simpl.
  repeat split; auto.
  - intros [e He]. destruct (fst (rr req (remote s))) as [|status body]; auto.
    simpl. destruct (is_error_status status), body; simpl in *;
      auto; discriminate.
  - intros H. destruct (fst (rr req (remote s))) as [|status body]; eauto.
    simpl in H. destruct (is_error_status status), body; simpl in *;
      eauto; discriminate.
Qed.

(** C6, as first stated, fails: a 200 response whose body is not JSON makes
    [_request] raise, in [response.json()], although the status is a
    success (200 is one under any reading of "non-success"). *)
Lemma request_raises_on_undecodable_body : ~ raises_iff_error_status.
Proof.
  intros H.
  specialize (H unit empty_200 (GristClient_init "k" "https://grist" "brightstar")
                GET Workspaces None (mk_state tt [])).
  destruct H as [H _].
  destruct H as (status & body & Hr & Hs).
  - exists JSONDecodeError. reflexivity.
  - simpl in Hr. inversion Hr; subst. discriminate.
Qed.

(** ** The client against the remote side *)

Import Grist.

Lemma decode_records_map rs : decode_records (map PDict rs) = Some rs.
Proof. induction rs as [|r rs IH]; simpl; auto. now rewrite IH. Qed.

Lemma decode_encode d : decode_columns (encode_types d) = Some d.
Proof.
  induction d as [|[k ty] d IH]; simpl; auto.
  fold (encode_types d). now rewrite IH.
Qed.

Lemma fold_left_filter {A B} (P : B -> bool) (f : A -> B -> A) l acc :
  fold_left (fun acc x => if P x then f acc x else acc) l acc
  = fold_left f (filter P l) acc.
Proof.
  revert acc. induction l as [|x l IH]; intros acc; simpl; auto.
  destruct (P x); simpl; auto.
Qed.

Lemma fold_set_encode columns acc :
  fold_left (fun acc col => dict_set (col_id col) (column_entry col) acc)
    columns (encode_types acc)
  = encode_types (dict_update (id_types columns) acc).
Proof.
  revert acc. induction columns as [|c cs IH]; intros acc; simpl; auto.
  unfold column_entry, encode_types.
  rewrite (dict_set_map (fun ty => PDict [("type", PStr ty)])).
  apply IH.
Qed.

Lemma columns_data_encode columns :
  columns_data columns = encode_types (dict_update (id_types columns) []).
Proof. unfold columns_data. apply (fold_set_encode columns []). Qed.

Lemma id_in_keys x (stored : dict string) :
  id_in x (map (fun c => PStr (fst c)) stored) = dict_contains x stored.
Proof.
  unfold id_in, dict_contains.
  induction stored as [|[k v] d IH]; simpl; auto.
  destruct (String.eqb k x); auto.
Qed.

Lemma new_cols_encode (stored : dict string) columns :
  new_cols (map (fun c => PStr (fst c)) stored) columns
  = encode_types (dict_update (id_types (missing_columns stored columns)) []).
Proof.
  unfold new_cols.
  rewrite (fold_left_filter
             (fun col => negb (id_in (col_id col) (map (fun c => PStr (fst c)) stored)))
             (fun acc col => dict_set (col_id col) (column_entry col) acc)).
  change (@nil (string * pyvalue)) with (encode_types []).
  rewrite fold_set_encode. f_equal. f_equal. f_equal.
  unfold missing_columns. apply filter_ext. intros c. now rewrite id_in_keys.
Qed.

Lemma existing_ids_json (stored : dict string) :
  existing_ids (map column_json stored) = Ok (map (fun c => PStr (fst c)) stored).
Proof.
  induction stored as [|[k v] d IH]; simpl; auto. now rewrite IH.
Qed.

Lemma keys_schema (tables : dict table) :
  dict_keys (map (fun kt => (fst kt, schema_json (snd kt))) tables) = dict_keys tables.
Proof. unfold dict_keys. rewrite map_map. reflexivity. Qed.

Lemma dict_set_not_nil {V} k (v : V) d : dict_set k v d <> [].
Proof. destruct d as [|[k0 v0] d]; simpl; [|destruct (String.eqb k0 k)]; discriminate. Qed.

Lemma dict_update_not_nil {V} kv (kvs : list (string * V)) d :
  dict_update (kv :: kvs) d <> [].
Proof.
  unfold dict_update. simpl.
  generalize (dict_set_not_nil (fst kv) (snd kv) d).
  generalize (dict_set (fst kv) (snd kv) d).
  induction kvs as [|kv' kvs IH]; simpl; auto.
  intros d' _. apply IH. apply dict_set_not_nil.
Qed.

Lemma find_doc_set_tables g d doc ts :
  find_doc (set_tables g d doc ts) (PStr d)
  = Some (d, {| d_name := d_name doc; d_tables := ts |}).
Proof. unfold find_doc, set_tables. simpl. now rewrite dict_get_set_eq. Qed.

Lemma find_doc_PStr g doc_id d doc :
  find_doc g doc_id = Some (d, doc) -> doc_id = PStr d /\ dict_get d (docs g) = Some doc.
Proof.
  unfold find_doc. destruct doc_id; try discriminate.
  destruct (dict_get s (docs g)) eqn:E; [|discriminate].
  intros H. inversion H; subst. auto.
Qed.


Arguments serve : simpl never.

Section GristRun.
Variable self : GristClient.

Lemma serve_list_tables doc_id data g :
  serve (build_request self GET (DocTables doc_id) data) g =
  match find_doc g doc_id with
  | Some (_, doc) =>
      (ok (PDict (map (fun kt => (fst kt, schema_json (snd kt))) (d_tables doc))), g)
  | None => (err 404, g)
  end.
Proof. reflexivity. Qed.

Lemma serve_get_columns doc_id tid data g :
  serve (build_request self GET (TableColumns doc_id tid) data) g =
  match find_doc g doc_id with
  | Some (_, doc) =>
      match dict_get tid (d_tables doc) with
      | Some t => (ok (schema_json t), g)
      | None => (err 404, g)
      end
  | None => (err 404, g)
  end.
Proof. reflexivity. Qed.

Lemma serve_create_table doc_id tid cols g d doc :
  find_doc g doc_id = Some (d, doc) ->
  dict_get tid (d_tables doc) = None ->
  serve (build_request self POST (DocTables doc_id)
           (Some (PDict [("tables",
              PList [PDict [("id", PStr tid);
                            ("columns", PDict (encode_types cols))]])]))) g
  = (ok (PDict [("tables", PList [])]),
     set_tables g d doc
       (dict_set tid {| tbl_columns := cols; tbl_records := [] |} (d_tables doc))).
Proof.
  intros Hdoc Ht. unfold serve. simpl. rewrite Hdoc. simpl.
  rewrite Ht, decode_encode. reflexivity.
Qed.

Lemma serve_patch_columns doc_id tid cols g d doc t :
  find_doc g doc_id = Some (d, doc) ->
  dict_get tid (d_tables doc) = Some t ->
  serve (build_request self PATCH (TableColumns doc_id tid)
           (Some (PDict [("columns", PDict (encode_types cols))]))) g
  = (ok PNone,
     set_tables g d doc
       (dict_set tid {| tbl_columns := dict_update cols (tbl_columns t);
                        tbl_records := tbl_records t |} (d_tables doc))).
Proof.
  intros Hdoc Ht. unfold serve. simpl. rewrite Hdoc. simpl.
  rewrite Ht, decode_encode. reflexivity.
Qed.

Lemma serve_add_records doc_id tid records g d doc t :
  find_doc g doc_id = Some (d, doc) ->
  dict_get tid (d_tables doc) = Some t ->
  serve (build_request self POST (TableRecords doc_id tid)
           (Some (PDict [("records", PList (map PDict records))]))) g
  = (ok (PDict [("records",
           record_ids (length (tbl_records t)) (length records))]),
     set_tables g d doc
       (dict_set tid {| tbl_columns := tbl_columns t;
                        tbl_records := tbl_records t ++ records |} (d_tables doc))).
Proof.
  intros Hdoc Ht. unfold serve. simpl. rewrite Hdoc. simpl.
  rewrite Ht, decode_records_map. reflexivity.
Qed.

Lemma ensure_table_run g doc_id tid columns tr :
  exists evs,
    match find_doc g doc_id with
    | None =>
        ensure_table grist serve self doc_id tid columns (mk_state g tr)
        = (Raise (HTTPError 404), mk_state g (tr ++ evs))
        /\ calls evs = [(GET, DocTables doc_id, None)]
    | Some (d, doc) =>
        match dict_get tid (d_tables doc) with
        | None =>
            ensure_table grist serve self doc_id tid columns (mk_state g tr)
            = (Ok tt,
               mk_state
                 (set_tables g d doc
                    (dict_set tid
                       {| tbl_columns := dict_update (id_types columns) [];
                          tbl_records := [] |} (d_tables doc)))
                 (tr ++ evs))
            /\ calls evs
               = [(GET, DocTables doc_id, None);
                  (POST, DocTables doc_id,
                   Some (PDict [("tables",
                     PList [PDict [("id", PStr tid);
                                   ("columns", PDict (columns_data columns))]])]))]
        | Some t =>
            match missing_columns (tbl_columns t) columns with
            | [] =>
                ensure_table grist serve self doc_id tid columns (mk_state g tr)
                = (Ok tt, mk_state g (tr ++ evs))
                /\ calls evs = [(GET, DocTables doc_id, None);
                                (GET, TableColumns doc_id tid, None)]
            | missing =>
                ensure_table grist serve self doc_id tid columns (mk_state g tr)
                = (Ok tt,
                   mk_state
                     (set_tables g d doc
                        (dict_set tid
                           {| tbl_columns :=
                                dict_update (dict_update (id_types missing) [])
                                  (tbl_columns t);
                              tbl_records := tbl_records t |} (d_tables doc)))
                     (tr ++ evs))
                /\ calls evs
                   = [(GET, DocTables doc_id, None);
                      (GET, TableColumns doc_id tid, None);
                      (PATCH, TableColumns doc_id tid,
                       Some (PDict [("columns",
                         PDict (encode_types
                                  (dict_update (id_types missing) [])))]))]
            end
        end
    end.
Proof.
  unfold ensure_table, list_tables, bind.
  rewrite request_run. simpl. rewrite serve_list_tables.
  destruct (find_doc g doc_id) as [[d doc]|] eqn:Hdoc; simpl.
  2:{ eexists. split; reflexivity. }
  rewrite keys_schema, str_in_keys. unfold dict_contains.
  destruct (dict_get tid (d_tables doc)) as [t|] eqn:Ht; simpl.
  - unfold get_table_schema. rewrite request_run. simpl. rewrite serve_get_columns.
    rewrite Hdoc, Ht. simpl.
    rewrite existing_ids_json. simpl. rewrite new_cols_encode.
    destruct (missing_columns (tbl_columns t) columns) as [|c cs] eqn:Hm.
    + simpl. eexists. rewrite <- app_assoc. split; reflexivity.
    + destruct (encode_types _) eqn:He.
      { exfalso. unfold encode_types in He. apply map_eq_nil in He.
        revert He. apply dict_update_not_nil. }
      rewrite <- He. rewrite request_run. simpl.
      rewrite (serve_patch_columns _ _ _ _ _ _ _ Hdoc Ht). simpl.
      eexists. rewrite <- !app_assoc. split; reflexivity.
  - unfold create_table. rewrite request_run. simpl.
    rewrite columns_data_encode.
    rewrite (serve_create_table _ _ _ _ _ _ Hdoc Ht). simpl.
    eexists. rewrite <- !app_assoc. split; reflexivity.
Qed.
End GristRun.

Lemma assoc_last_In {V} k (v : V) kvs : In (k, v) kvs -> assoc_last k kvs <> None.
Proof.
  induction kvs as [|[k0 v0] kvs IH]; simpl; [tauto|].
  intros [H|H].
  - inversion H; subst. rewrite String.eqb_refl. now destruct (assoc_last k kvs).
  - specialize (IH H). now destruct (assoc_last k kvs).
Qed.

Lemma required_type_In col columns :
  In col columns -> required_type (col_id col) columns <> None.
Proof.
  intros H. unfold required_type, id_types.
  apply (assoc_last_In _ (column_type col)).
  apply (in_map (fun c => (col_id c, column_type c)) _ _ H).
Qed.

Lemma required_type_missing id stored columns :
  required_type id (missing_columns stored columns)
  = if dict_contains id stored then None else required_type id columns.
Proof.
  unfold required_type, id_types, missing_columns.
  induction columns as [|c cs IH]; simpl.
  - now destruct (dict_contains id stored).
  - destruct (dict_contains (col_id c) stored) eqn:Hc; simpl; rewrite IH; clear IH;
      destruct (dict_contains id stored) eqn:Hi; auto;
      repeat match goal with
             | |- context [assoc_last ?k ?l] => destruct (assoc_last k l)
             end; auto;
      destruct (String.eqb_spec (col_id c) id); auto; congruence.
Qed.

Lemma typed_get id columns :
  dict_get id (dict_update (id_types columns) []) = required_type id columns.
Proof.
  rewrite dict_get_update. unfold required_type.
  now destruct (assoc_last id (id_types columns)).
Qed.

(** The columns of a table after the missing ones are added. *)
Lemma patched_get id (stored : dict string) columns :
  dict_get id
    (dict_update (dict_update (id_types (missing_columns stored columns)) []) stored)
  = match dict_get id stored with
    | Some ty => Some ty
    | None => required_type id columns
    end.
Proof.
  rewrite dict_get_update.
  rewrite assoc_last_nodup by (apply dict_update_nodup; constructor).
  rewrite typed_get, required_type_missing.
  unfold dict_contains. destruct (dict_get id stored); auto.
  now destruct (required_type id columns).
Qed.

Lemma table_of_set_tables g d doc ts tid :
  table_of (set_tables g d doc ts) d tid = dict_get tid ts.
Proof. unfold table_of, set_tables. simpl. now rewrite dict_get_set_eq. Qed.

Lemma table_of_find_doc g doc_id d doc tid :
  find_doc g doc_id = Some (d, doc) -> table_of g d tid = dict_get tid (d_tables doc).
Proof.
  intros H. apply find_doc_PStr in H as [_ H]. unfold table_of. now rewrite H.
Qed.

Lemma missing_nil_contains stored columns col :
  missing_columns stored columns = [] -> In col columns ->
  dict_contains (col_id col) stored = true.
Proof.
  unfold missing_columns. intros Hm Hin.
  destruct (dict_contains (col_id col) stored) eqn:E; auto.
  assert (Hf : In col (filter (fun c => negb (dict_contains (col_id c) stored)) columns)).
  { apply filter_In. rewrite E. auto. }
  rewrite Hm in Hf. destruct Hf.
Qed.

Lemma contains_missing_nil stored columns :
  (forall col, In col columns -> dict_contains (col_id col) stored = true) ->
  missing_columns stored columns = [].
Proof.
  unfold missing_columns. induction columns as [|c cs IH]; simpl; intros H; auto.
  rewrite (H c) by auto. simpl. apply IH. auto.
Qed.

Lemma encode_missing_not_nil columns :
  columns <> [] -> encode_types (dict_update (id_types columns) []) <> [].
Proof.
  destruct columns as [|c cs]; [congruence|]. intros _ H.
  apply map_eq_nil in H. revert H.
  apply (dict_update_not_nil (col_id c, column_type c) (id_types cs)).
Qed.

(** What a completed [ensure_table] leaves on the remote side and which
    writes it sent, with the types as [required_type] gives them. *)
Lemma ensure_table_outcome :
  forall (g : grist) self doc_id table_id columns tr s',
    ensure_table grist serve self doc_id table_id columns (mk_state g tr)
    = (Ok tt, s') ->
    exists d doc t' evs,
      doc_id = PStr d
      /\ dict_get d (docs g) = Some doc
      /\ trace s' = tr ++ evs
      /\ table_of (remote s') d table_id = Some t'
      /\ (forall col, In col columns ->
            dict_contains (col_id col) (tbl_columns t') = true)
      /\ (forall id, column_type {| col_id := id; col_type := None |} = "Text")
      /\ match dict_get table_id (d_tables doc) with
         | None =>
             (forall id, dict_get id (tbl_columns t') = required_type id columns)
             /\ tbl_records t' = []
             /\ write_calls (calls evs)
                = [(POST, DocTables doc_id,
                    Some (PDict [("tables",
                      PList [PDict [("id", PStr table_id);
                                    ("columns", PDict (columns_data columns))]])]))]
         | Some t =>
             (forall id,
                 dict_get id (tbl_columns t')
                 = match dict_get id (tbl_columns t) with
                   | Some ty => Some ty
                   | None => required_type id columns
                   end)
             /\ tbl_records t' = tbl_records t
             /\ exists added,
                 (forall id,
                     dict_get id added
                     = if dict_contains id (tbl_columns t) then None
                       else option_map (fun ty => PDict [("type", PStr ty)])
                              (required_type id columns))
                 /\ write_calls (calls evs)
                    = match added with
                      | [] => []
                      | _ :: _ =>
                          [(PATCH, TableColumns doc_id table_id,
                            Some (PDict [("columns", PDict added)]))]
                      end
         end.
Proof.
  intros g self doc_id tid columns tr s' Hrun.
  destruct (ensure_table_run self g doc_id tid columns tr) as [evs Hcase].
  destruct (find_doc g doc_id) as [[d doc]|] eqn:Hdoc.
  2:{ destruct Hcase as [Hc _]. rewrite Hc in Hrun. discriminate. }
  destruct (find_doc_PStr _ _ _ _ Hdoc) as [Hid Hd].
  destruct (dict_get tid (d_tables doc)) as [t|] eqn:Ht.
  - destruct (missing_columns (tbl_columns t) columns) as [|c cs] eqn:Hm.
    + destruct Hcase as [Hc Hcalls]. rewrite Hc in Hrun. inversion Hrun; subst s'.
      exists d, doc, t, evs. simpl.
      rewrite (table_of_find_doc _ _ _ _ tid Hdoc), Ht.
      repeat split; auto.
      * intros col Hin. now apply (missing_nil_contains _ columns).
      * intros id. destruct (dict_get id (tbl_columns t)) eqn:E; auto.
        pose proof (required_type_missing id (tbl_columns t) columns) as Hr.
        rewrite Hm in Hr. unfold dict_contains in Hr. rewrite E in Hr.
        now rewrite <- Hr.
      * exists []. split; [|now rewrite Hcalls].
        intros id. simpl.
        pose proof (required_type_missing id (tbl_columns t) columns) as Hr.
        rewrite Hm in Hr. destruct (dict_contains id (tbl_columns t)); auto.
        now rewrite <- Hr.
    + rewrite <- Hm in Hcase. destruct Hcase as [Hc Hcalls].
      rewrite Hc in Hrun. inversion Hrun; subst s'.
      eexists d, doc, _, evs. simpl.
      rewrite table_of_set_tables, dict_get_set_eq.
      split; [auto|]. split; [auto|]. split; [auto|]. split; [reflexivity|].
      rewrite Ht. simpl. repeat split; auto.
      * intros col Hin. unfold dict_contains. rewrite patched_get.
        destruct (dict_get (col_id col) (tbl_columns t)); auto.
        pose proof (required_type_In col columns Hin).
        now destruct (required_type (col_id col) columns).
      * intros id. apply patched_get.
      * exists (encode_types
                  (dict_update (id_types (missing_columns (tbl_columns t) columns)) [])).
        split.
        -- intros id. unfold encode_types.
           rewrite (dict_get_map (fun ty => PDict [("type", PStr ty)])).
           rewrite typed_get, required_type_missing.
           now destruct (dict_contains id (tbl_columns t)).
        -- rewrite Hcalls. simpl.
           destruct (encode_types _) eqn:He; auto.
           exfalso. revert He. apply encode_missing_not_nil.
           rewrite Hm. discriminate.
  - destruct Hcase as [Hc Hcalls]. rewrite Hc in Hrun. inversion Hrun; subst s'.
    eexists d, doc, _, evs. simpl.
    rewrite table_of_set_tables, dict_get_set_eq.
    split; [auto|]. split; [auto|]. split; [auto|]. split; [reflexivity|].
    rewrite Ht. simpl. repeat split; auto.
    + intros col Hin. unfold dict_contains. rewrite typed_get.
      pose proof (required_type_In col columns Hin).
      now destruct (required_type (col_id col) columns).
    + intros id. apply typed_get.
    + now rewrite Hcalls.
Qed.

Lemma required_type_declared id columns :
  required_type id columns = last_declared_type id columns.
Proof.
  unfold required_type, id_types.
  induction columns as [|col rest IH]; simpl; auto.
  rewrite IH. destruct (last_declared_type id rest); [reflexivity|].
  unfold column_type, declared_type. reflexivity.
Qed.

Lemma last_declared_type_absent id columns :
  ~ In id (map col_id columns) -> last_declared_type id columns = None.
Proof.
  induction columns as [|col rest IH]; simpl; auto.
  intros H. rewrite IH by tauto.
  destruct (String.eqb_spec (col_id col) id); auto. tauto.
Qed.

Lemma last_declared_type_nodup col columns :
  NoDup (map col_id columns) -> In col columns ->
  last_declared_type (col_id col) columns = Some (declared_type col).
Proof.
  induction columns as [|c rest IH]; simpl; [tauto|].
  intros Hnd Hin. inversion Hnd as [|? ? Hnotin Hrest]; subst.
  destruct Hin as [->|Hin].
  - rewrite last_declared_type_absent by assumption.
    now rewrite String.eqb_refl.
  - now rewrite (IH Hrest Hin).
Qed.

Lemma columns_data_declared id columns :
  dict_get id (columns_data columns)
  = option_map (fun ty => PDict [("type", PStr ty)]) (last_declared_type id columns).
Proof.
  rewrite columns_data_encode. unfold encode_types.
  rewrite (dict_get_map (fun ty => PDict [("type", PStr ty)])).
  now rewrite typed_get, required_type_declared.
Qed.

(** C1: when [ensure_table] completes on a remote state, the table exists
    and holds every required column.  An absent table is created, by one
    table-creation request, with exactly the required columns: each id gets
    the type its definition declares (that of the last definition when an
    id is defined twice), "Text" when the definition has no "type" key.
    For a present table the stored columns are kept and exactly the
    required columns whose id is not stored are added, with their declared
    types, by one columns-patch request (none when nothing is missing), the
    rows being left as they are. *)
Theorem ensure_table_superset :
  forall (g : grist) self doc_id table_id columns tr s',
    ensure_table grist serve self doc_id table_id columns (mk_state g tr)
    = (Ok tt, s') ->
    exists d doc t' evs,
      doc_id = PStr d
      /\ dict_get d (docs g) = Some doc
      /\ trace s' = tr ++ evs
      /\ table_of (remote s') d table_id = Some t'
      /\ (forall col, In col columns ->
            dict_contains (col_id col) (tbl_columns t') = true)
      /\ (forall id, column_type {| col_id := id; col_type := None |} = "Text")
      /\ match dict_get table_id (d_tables doc) with
         | None =>
             (forall id,
                 dict_get id (tbl_columns t') = last_declared_type id columns)
             /\ (NoDup (map col_id columns) ->
                 forall col, In col columns ->
                   dict_get (col_id col) (tbl_columns t')
                   = Some (match col_type col with
                           | Some ty => ty
                           | None => "Text"
                           end))
             /\ tbl_records t' = []
             /\ write_calls (calls evs)
                = [(POST, DocTables doc_id,
                    Some (PDict [("tables",
                      PList [PDict [("id", PStr table_id);
                                    ("columns", PDict (columns_data columns))]])]))]
             /\ (forall id,
                    dict_get id (columns_data columns)
                    = option_map (fun ty => PDict [("type", PStr ty)])
                        (last_declared_type id columns))
         | Some t =>
             (forall id,
                 dict_get id (tbl_columns t')
                 = match dict_get id (tbl_columns t) with
                   | Some ty => Some ty
                   | None => last_declared_type id columns
                   end)
             /\ (NoDup (map col_id columns) ->
                 forall col, In col columns ->
                   dict_get (col_id col) (tbl_columns t) = None ->
                   dict_get (col_id col) (tbl_columns t')
                   = Some (match col_type col with
                           | Some ty => ty
                           | None => "Text"
                           end))
             /\ tbl_records t' = tbl_records t
             /\ exists added,
                 (forall id,
                     dict_get id added
                     = if dict_contains id (tbl_columns t) then None
                       else option_map (fun ty => PDict [("type", PStr ty)])
                              (last_declared_type id columns))
                 /\ write_calls (calls evs)
                    = match added with
                      | [] => []
                      | _ :: _ =>
                          [(PATCH, TableColumns doc_id table_id,
                            Some (PDict [("columns", PDict added)]))]
                      end
         end.
Proof.
  intros g self doc_id tid columns tr s' Hrun.
  destruct (ensure_table_outcome g self doc_id tid columns tr s' Hrun)
    as (d & doc & t' & evs & Hid & Hdoc & Htr & Ht' & Hsup & Htext & Hcase).
  exists d, doc, t', evs. repeat (split; [assumption|]).
  destruct (dict_get tid (d_tables doc)) as [t|].
  - destruct Hcase as (Hget & Hrows & added & Hadded & Hcalls).
    assert (Hget' : forall id,
               dict_get id (tbl_columns t')
               = match dict_get id (tbl_columns t) with
                 | Some ty => Some ty
                 | None => last_declared_type id columns
                 end)
      by (intros id; now rewrite Hget, required_type_declared).
    split; [exact Hget'|]. split.
    + intros Hnd col Hin Hnone. rewrite Hget', Hnone.
      apply (last_declared_type_nodup col columns Hnd Hin).
    + split; [exact Hrows|]. exists added. split; [|exact Hcalls].
      intros id. now rewrite Hadded, required_type_declared.
  - destruct Hcase as (Hget & Hrows & Hcalls).
    assert (Hget' : forall id,
               dict_get id (tbl_columns t') = last_declared_type id columns)
      by (intros id; now rewrite Hget, required_type_declared).
    split; [exact Hget'|]. split.
    + intros Hnd col Hin. rewrite Hget'.
      apply (last_declared_type_nodup col columns Hnd Hin).
    + split; [exact Hrows|]. split; [exact Hcalls|].
      intros id. apply columns_data_declared.
Qed.

Lemma ensure_table_superset_witness :
  (exists t',
      table_of
        (remote (snd (ensure_table grist serve example_client (PStr "d1")
                        "MSM_Results" example_columns (mk_state example_remote []))))
        "d1" "MSM_Results" = Some t'
      /\ dict_get "date" (tbl_columns t') = Some "DateTime"
      /\ dict_get "hours" (tbl_columns t') = Some "Numeric"
      /\ dict_get "note" (tbl_columns t') = Some "Text")
  /\ (exists t',
         table_of
           (remote (snd (ensure_table grist serve example_client (PStr "d1")
                           "Shifts" example_columns (mk_state example_remote []))))
           "d1" "Shifts" = Some t'
         /\ dict_get "date" (tbl_columns t') = Some "DateTime"
         /\ dict_get "hours" (tbl_columns t') = Some "Numeric"
         /\ dict_get "note" (tbl_columns t') = Some "Text").
Proof.
  split.
  - destruct (ensure_table_superset example_remote example_client (PStr "d1")
                "MSM_Results" example_columns []
                (snd (ensure_table grist serve example_client (PStr "d1")
                        "MSM_Results" example_columns (mk_state example_remote [])))
                eq_refl)
      as (d & doc & t' & evs & Hd & Hdoc & _ & Ht & _ & _ & Hcols).
    injection Hd as <-. injection Hdoc as <-. simpl in Hcols.
    exists t'. split; [exact Ht|].
    destruct Hcols as [Hget _]. rewrite !Hget. repeat split; reflexivity.
  - destruct (ensure_table_superset example_remote example_client (PStr "d1")
                "Shifts" example_columns []
                (snd (ensure_table grist serve example_client (PStr "d1")
                        "Shifts" example_columns (mk_state example_remote [])))
                eq_refl)
      as (d & doc & t' & evs & Hd & Hdoc & _ & Ht & _ & _ & Hcols).
    injection Hd as <-. injection Hdoc as <-. simpl in Hcols.
    exists t'. split; [exact Ht|].
    destruct Hcols as [Hget _]. rewrite !Hget. repeat split; reflexivity.
Defined.

Section Idempotence.
Variable self : GristClient.

Lemma ensure_table_noop g doc_id tid columns tr d doc t :
  find_doc g doc_id = Some (d, doc) ->
  dict_get tid (d_tables doc) = Some t ->
  (forall col, In col columns -> dict_contains (col_id col) (tbl_columns t) = true) ->
  exists evs,
    ensure_table grist serve self doc_id tid columns (mk_state g tr)
    = (Ok tt, mk_state g (tr ++ evs))
    /\ calls evs = [(GET, DocTables doc_id, None);
                    (GET, TableColumns doc_id tid, None)].
Proof.
  intros Hdoc Ht Hall.
  destruct (ensure_table_run self g doc_id tid columns tr) as [evs H].
  rewrite Hdoc, Ht, (contains_missing_nil _ _ Hall) in H. eauto.
Qed.

Lemma ensure_table_rerun g doc_id tid columns tr d doc t :
  find_doc g doc_id = Some (d, doc) ->
  (forall col, In col columns -> dict_contains (col_id col) (tbl_columns t) = true) ->
  exists evs,
    ensure_table grist serve self doc_id tid columns
      (mk_state (set_tables g d doc (dict_set tid t (d_tables doc))) tr)
    = (Ok tt,
       mk_state (set_tables g d doc (dict_set tid t (d_tables doc))) (tr ++ evs))
    /\ calls evs = [(GET, DocTables doc_id, None);
                    (GET, TableColumns doc_id tid, None)].
Proof.
  intros Hdoc Hall.
  destruct (find_doc_PStr _ _ _ _ Hdoc) as [-> _].
  eapply ensure_table_noop; eauto.
  - apply find_doc_set_tables.
  - simpl. apply dict_get_set_eq.
Qed.
End Idempotence.

(** C4: running [ensure_table] a second time with the same arguments,
    right after a first run, sends no table-creation and no column-addition
    request (it only reads), leaves the remote state, and so the table's
    schema, as the first run left it, and succeeds when the first run did. *)
Theorem ensure_table_idempotent :
  forall (g : grist) self doc_id table_id columns tr,
    let out1 :=
      ensure_table grist serve self doc_id table_id columns (mk_state g tr) in
    let out2 :=
      ensure_table grist serve self doc_id table_id columns (snd out1) in
    remote (snd out2) = remote (snd out1)
    /\ (forall d, table_of (remote (snd out2)) d table_id
                  = table_of (remote (snd out1)) d table_id)
    /\ (exists evs,
           trace (snd out2) = trace (snd out1) ++ evs
           /\ write_calls (calls evs) = [])
    /\ (fst out1 = Ok tt -> fst out2 = Ok tt).
Proof.
  intros g self doc_id tid columns tr out1 out2.
  assert (H : exists g1 tr1 evs r,
             snd out1 = mk_state g1 tr1
             /\ out2 = (r, mk_state g1 (tr1 ++ evs))
             /\ write_calls (calls evs) = []
             /\ (fst out1 = Ok tt -> r = Ok tt)).
  { subst out2 out1.
    destruct (ensure_table_run self g doc_id tid columns tr) as [evs1 H1].
    destruct (find_doc g doc_id) as [[d doc]|] eqn:Hdoc.
    - destruct (dict_get tid (d_tables doc)) as [t|] eqn:Ht.
      + destruct (missing_columns (tbl_columns t) columns) as [|c cs] eqn:Hm.
        * destruct H1 as [H1 _]. rewrite H1. simpl.
          assert (Hall : forall col, In col columns ->
                     dict_contains (col_id col) (tbl_columns t) = true)
            by (intros col; now apply missing_nil_contains).
          destruct (ensure_table_noop self g doc_id tid columns (tr ++ evs1)
                      d doc t Hdoc Ht Hall) as (evs & H2 & Hc).
          exists g, (tr ++ evs1), evs, (Ok tt). rewrite Hc. auto.
        * rewrite <- Hm in H1. destruct H1 as [H1 _]. rewrite H1. simpl.
          edestruct (ensure_table_rerun self g doc_id tid columns (tr ++ evs1)
                       d doc) as (evs & H2 & Hc); [exact Hdoc| |].
          2:{ do 3 eexists. exists (Ok tt). rewrite Hc. split; [reflexivity|].
              split; [exact H2|]. auto. }
          simpl. intros col Hin. unfold dict_contains. rewrite patched_get.
          destruct (dict_get (col_id col) (tbl_columns t)); auto.
          pose proof (required_type_In col columns Hin).
          now destruct (required_type (col_id col) columns).
      + destruct H1 as [H1 _]. rewrite H1. simpl.
        edestruct (ensure_table_rerun self g doc_id tid columns (tr ++ evs1)
                     d doc) as (evs & H2 & Hc); [exact Hdoc| |].
        2:{ do 3 eexists. exists (Ok tt). rewrite Hc. split; [reflexivity|].
            split; [exact H2|]. auto. }
        simpl. intros col Hin. unfold dict_contains. rewrite typed_get.
        pose proof (required_type_In col columns Hin).
        now destruct (required_type (col_id col) columns).
    - destruct H1 as [H1 _]. rewrite H1. simpl.
      destruct (ensure_table_run self g doc_id tid columns (tr ++ evs1))
        as [evs H2].
      rewrite Hdoc in H2. destruct H2 as [H2 Hc].
      exists g, (tr ++ evs1), evs, (Raise (HTTPError 404)). rewrite Hc.
      repeat split; auto; discriminate. }
  destruct H as (g1 & tr1 & evs & r & Hs1 & Hout2 & Hw & Hr).
  rewrite Hout2, Hs1. simpl. repeat split; auto. eauto.
Qed.

(** C5: [upsert_records] is [add_records], whatever [key_columns] is: the
    same request, the same result, the same final state.  On the remote
    side the records are appended after the rows the table has, which are
    neither matched nor changed. *)
Theorem upsert_is_add :
  (forall World requests_request self doc_id table_id records key_columns
          (s : state World),
      upsert_records World requests_request self doc_id table_id records
        key_columns s
      = add_records World requests_request self doc_id table_id records s)
  /\ (forall (g : grist) self d doc table_id t records key_columns tr,
         dict_get d (docs g) = Some doc ->
         dict_get table_id (d_tables doc) = Some t ->
         let out := upsert_records grist serve self (PStr d) table_id records
                      key_columns (mk_state g tr) in
         (exists v, fst out = Ok v)
         /\ table_of (remote (snd out)) d table_id
            = Some {| tbl_columns := tbl_columns t;
                      tbl_records := tbl_records t ++ records |}).
Proof.
  split.
  - intros. unfold upsert_records. now destruct key_columns.
  - intros g self d doc tid t records kc tr Hd Ht out.
    assert (Hdoc : find_doc g (PStr d) = Some (d, doc)).
    { unfold find_doc. now rewrite Hd. }
    subst out. replace (upsert_records grist serve self (PStr d) tid records kc)
      with (add_records grist serve self (PStr d) tid records)
      by (unfold upsert_records; now destruct kc).
    unfold add_records. rewrite request_run. simpl.
    rewrite (serve_add_records self _ _ _ _ _ _ _ Hdoc Ht). simpl.
    split; [eauto|]. now rewrite table_of_set_tables, dict_get_set_eq.
Qed.

Lemma upsert_is_add_witness :
  table_of
    (remote (snd (upsert_records grist serve example_client (PStr "d1")
                    "MSM_Results" [[("date", PStr "2025-09-02")]]
                    (Some ["date"]) (mk_state example_remote []))))
    "d1" "MSM_Results"
  = Some {| tbl_columns := [("date", "DateTime")];
            tbl_records := [[("date", PStr "2025-09-01")];
                            [("date", PStr "2025-09-02")]] |}.
Proof.
  apply (proj2 upsert_is_add example_remote example_client "d1"
           {| d_name := "ABS_Scraper_Data";
              d_tables :=
                [("MSM_Results",
                  {| tbl_columns := [("date", "DateTime")];
                     tbl_records := [[("date", PStr "2025-09-01")]] |})] |}
           "MSM_Results"
           {| tbl_columns := [("date", "DateTime")];
              tbl_records := [[("date", PStr "2025-09-01")]] |}
           [[("date", PStr "2025-09-02")]] (Some ["date"]) []);
    reflexivity.
Defined.
Lemma pyvalue_is_none (v : pyvalue) : v = PNone \/ v <> PNone.
Proof. destruct v; (now left) || (right; discriminate). Qed.

Section Documents.
Variable self : GristClient.

Lemma serve_workspaces data g :
  serve (build_request self GET Workspaces data) g
  = (ok (PList (map workspace_json (workspaces g))), g).
Proof. reflexivity. Qed.

Lemma serve_list_documents wid data g :
  serve (build_request self GET (WorkspaceDocs wid) data) g
  = match find (names_workspace wid) (workspaces g) with
    | Some w => (ok (PList (listing g w)), g)
    | None => (err 404, g)
    end.
Proof. reflexivity. Qed.

Lemma find_workspace_json name ws :
  find_workspace name (map workspace_json ws)
  = Ok (option_map workspace_json (find (fun w => String.eqb (ws_name w) name) ws)).
Proof.
  induction ws as [|w ws IH]; simpl; auto.
  destruct (String.eqb (ws_name w) name); auto.
Qed.

Lemma find_document_listing name g ids :
  find_document name (flat_map (document_json g) ids)
  = Ok (find (has_name name) (flat_map (document_json g) ids)).
Proof.
  induction ids as [|i ids IH]; simpl; auto.
  unfold document_json at 1 3. destruct (dict_get i (docs g)); simpl; auto.
  destruct (String.eqb (d_name d) name); auto.
Qed.

Lemma get_workspace_run g tr :
  get_workspace grist serve self None (mk_state g tr)
  = (match find (fun w => String.eqb (ws_name w) (org self)) (workspaces g) with
     | Some w => Ok (workspace_json w)
     | None => Raise (ValueError ("Workspace '" ++ org self ++ "' not found"))
     end,
     mk_state g (tr ++ [(build_request self GET Workspaces None,
                         ok (PList (map workspace_json (workspaces g))))])).
Proof.
  unfold get_workspace, list_workspaces, bind.
  rewrite request_run. simpl. rewrite ?serve_workspaces. simpl.
  rewrite find_workspace_json. simpl.
  destruct (find _ (workspaces g)); reflexivity.
Qed.

(** Listing, searching and, when nothing is found, creating, once the
    workspace id is known. *)
Lemma get_or_create_listed g doc_name wid tr r s' :
  wid <> PNone ->
  bind grist (list_documents grist serve self wid)
    (fun docs =>
       bind grist (lift grist (py_iter docs))
         (fun items =>
            bind grist (lift grist (find_document doc_name items))
              (fun found =>
                 match found with
                 | Some doc => ret grist doc
                 | None =>
                     _request grist serve self POST (WorkspaceDocs wid)
                       (Some (PDict [("name", PStr doc_name)]))
                 end)))
    (mk_state g tr) = (r, s') ->
  exists evs,
    trace s' = tr ++ evs
    /\ match find (names_workspace wid) (workspaces g) with
       | None =>
           (exists e, r = Raise e)
           /\ write_calls (calls evs) = [] /\ remote s' = g
       | Some w =>
           match find (has_name doc_name) (listing g w) with
           | Some doc =>
               r = Ok doc /\ write_calls (calls evs) = [] /\ remote s' = g
           | None =>
               write_calls (calls evs)
               = [(POST, WorkspaceDocs wid, Some (PDict [("name", PStr doc_name)]))]
           end
       end.
Proof.
  intros Hw E.
  assert (Hres : forall s, resolve_workspace_id grist serve self wid s = (Ok wid, s))
    by (destruct wid; try reflexivity; congruence).
  unfold list_documents, bind in E. rewrite !Hres in E.
  rewrite request_run in E. simpl in E. rewrite ?serve_list_documents in E.
  destruct (find (names_workspace wid) (workspaces g)) as [w|]; simpl in E.
  2:{ inversion E; subst. eexists. split; [reflexivity|]. simpl. eauto. }
  unfold listing in *. rewrite find_document_listing in E. simpl in E.
  destruct (find (has_name doc_name) _) as [doc|]; simpl in E.
  - inversion E; subst. eexists. split; [reflexivity|]. simpl. auto.
  - rewrite request_run in E. simpl in E. inversion E; subst. simpl.
    eexists. split; [rewrite <- app_assoc; reflexivity|]. reflexivity.
Qed.
End Documents.

(** C7: [get_or_create_document] returns the first document of the
    workspace's listing whose "name" equals [doc_name], without sending a
    creation request, when there is one; it sends the creation request,
    with that name, exactly when the workspace is found and none of its
    documents has the name. *)
Theorem get_or_create_document_first_match :
  forall (g : grist) self doc_name workspace_id tr,
    let out := get_or_create_document grist serve self doc_name workspace_id
                 (mk_state g tr) in
    exists evs,
      trace (snd out) = tr ++ evs
      /\ match resolved_workspace g self workspace_id with
         | None =>
             (exists e, fst out = Raise e)
             /\ write_calls (calls evs) = [] /\ remote (snd out) = g
         | Some w =>
             match find (has_name doc_name) (listing g w) with
             | Some doc =>
                 fst out = Ok doc
                 /\ write_calls (calls evs) = [] /\ remote (snd out) = g
             | None =>
                 write_calls (calls evs)
                 = [(POST,
                     WorkspaceDocs (match workspace_id with
                                    | PNone => PInt (ws_id w)
                                    | _ => workspace_id
                                    end),
                     Some (PDict [("name", PStr doc_name)]))]
             end
         end.
Proof.
  intros g self doc_name wid tr out. subst out.
  destruct (get_or_create_document grist serve self doc_name wid (mk_state g tr))
    as [r s'] eqn:E. simpl.
  unfold get_or_create_document in E.
  destruct (pyvalue_is_none wid) as [->|Hw].
  - unfold resolve_workspace_id in E.
    unfold bind at 1 in E. unfold bind at 1 in E. rewrite get_workspace_run in E.
    unfold resolved_workspace.
    destruct (find (fun w => String.eqb (ws_name w) (org self)) (workspaces g))
      as [w0|] eqn:Hw0; simpl in E.
    2:{ inversion E; subst. eexists. split; [reflexivity|]. simpl. eauto. }
    destruct (get_or_create_listed self g doc_name (PInt (ws_id w0)) _ r s'
                ltac:(discriminate) E) as (evs & Ht & Hcase).
    eexists. split; [rewrite Ht, <- app_assoc; reflexivity|].
    simpl calls. unfold write_calls. simpl filter. fold (write_calls (calls evs)).
    destruct (find (names_workspace (PInt (ws_id w0))) (workspaces g)) as [w|] eqn:Hfind;
      [|exact Hcase].
    apply find_some in Hfind as [_ Heq]. simpl in Heq.
    apply Z.eqb_eq in Heq. rewrite <- Heq. exact Hcase.
  - assert (Hres : forall s, resolve_workspace_id grist serve self wid s = (Ok wid, s))
      by (destruct wid; try reflexivity; congruence).
    unfold bind at 1 in E. rewrite Hres in E.
    destruct (get_or_create_listed self g doc_name wid tr r s' Hw E)
      as (evs & Ht & Hcase).
    exists evs. split; [exact Ht|].
    replace (resolved_workspace g self wid)
      with (find (names_workspace wid) (workspaces g))
      by (destruct wid; try reflexivity; congruence).
    destruct (find (names_workspace wid) (workspaces g)); auto.
    destruct (find (has_name doc_name) _); auto.
    rewrite Hcase. destruct wid; try reflexivity; congruence.
Qed.

(** ** The timestamp loop of [send_to_grist] *)

Lemma dict_set_absent {V} k (v : V) d :
  dict_contains k d = false -> dict_set k v d = d ++ [(k, v)].
Proof.
  unfold dict_contains. induction d as [|[k0 v0] d IH]; simpl; auto.
  destruct (String.eqb k0 k); [discriminate|].
  intros H. now rewrite IH.
Qed.

Lemma stamp_at timestamp h l l' :
  stamp timestamp h l l'
  = if Nat.eqb l' l
    then (if dict_contains "scraped_at" (h l) then h l
          else h l ++ [("scraped_at", PStr timestamp)])
    else h l'.
Proof.
  unfold stamp, heap_set.
  destruct (dict_contains "scraped_at" (h l)) eqn:E; simpl.
  - destruct (Nat.eqb_spec l' l); congruence.
  - now rewrite dict_set_absent.
Qed.

Lemma stamp_all_at timestamp data h l :
  stamp_all timestamp data h l
  = if existsb (Nat.eqb l) data
    then (if dict_contains "scraped_at" (h l) then h l
          else h l ++ [("scraped_at", PStr timestamp)])
    else h l.
Proof.
  unfold stamp_all. revert h.
  induction data as [|a data IH]; intros h; simpl; auto.
  rewrite IH, !stamp_at.
  destruct (Nat.eqb_spec l a) as [->|Hne]; simpl.
  - destruct (dict_contains "scraped_at" (h a)) eqn:E.
    + rewrite E. now destruct (existsb (Nat.eqb a) data).
    + replace (dict_contains "scraped_at" (h a ++ [("scraped_at", PStr timestamp)]))
        with true.
      * now destruct (existsb (Nat.eqb a) data).
      * symmetry. unfold dict_contains. clear.
        induction (h a) as [|[k v] d IHd]; simpl; auto.
        destruct (String.eqb k "scraped_at"); auto.
  - reflexivity.
Qed.

Lemma existsb_eqb_In l (data : list loc) :
  existsb (Nat.eqb l) data = true <-> In l data.
Proof.
  rewrite existsb_exists. split.
  - intros (x & Hin & Heq). apply Nat.eqb_eq in Heq. now subst.
  - intros Hin. exists l. split; auto. apply Nat.eqb_refl.
Qed.

(** C8: once the document and the table are prepared, [send_to_grist]
    changes the records of [data] in place and then uploads them: a record
    without a "scraped_at" key gets one, at the end, holding the one
    timestamp of the call; a record that has the key is left as it is; no
    other field and no other object changes; and the single request that
    follows carries exactly the records of [data] so changed. *)
Theorem send_to_grist_stamps_records :
  forall World (requests_request : request -> World -> reply * World)
         fromisoformat (data : list loc) api_key server doc_name table_name org
         upsert key_columns timestamp (h : heap) (s : state World) doc_id s1,
    data <> [] ->
    prepare_table World requests_request fromisoformat
      (GristClient_init api_key server org) (map h data) doc_name table_name s
    = (Ok doc_id, s1) ->
    exists r h' s' answer,
      send_to_grist World requests_request fromisoformat data api_key server
        doc_name table_name org upsert key_columns timestamp h s
      = (r, h', s')
      /\ (forall l, In l data -> dict_contains "scraped_at" (h l) = false ->
            h' l = h l ++ [("scraped_at", PStr timestamp)])
      /\ (forall l, In l data -> dict_contains "scraped_at" (h l) = true ->
            h' l = h l)
      /\ (forall l, ~ In l data -> h' l = h l)
      /\ trace s'
         = trace s1
           ++ [(build_request (GristClient_init api_key server org) POST
                  (TableRecords doc_id table_name)
                  (Some (PDict [("records", PList (map PDict (map h' data)))])),
                answer)].
Proof.
  intros World rr f data api_key server doc_name table_name org upsert kc ts
         h s doc_id s1 Hne Hprep.
  unfold send_to_grist. destruct data as [|l0 rest]; [congruence|].
  rewrite Hprep.
  set (data := l0 :: rest) in *.
  set (h' := stamp_all ts data h).
  set (client := GristClient_init api_key server org).
  assert (Hup : (if upsert
                 then upsert_records World rr client doc_id table_name
                        (map h' data) kc
                 else add_records World rr client doc_id table_name (map h' data)) s1
                = add_records World rr client doc_id table_name (map h' data) s1).
  { destruct upsert; auto. unfold upsert_records. now destruct kc. }
  rewrite Hup. unfold add_records. rewrite request_run. cbv zeta.
  match goal with
  | |- context [fst (rr ?q ?w)] => set (answer := fst (rr q w)); set (w' := snd (rr q w))
  end.
  exists (match (match answer with
                 | TransportError => Raise RequestException
                 | Response status body =>
                     if is_error_status status then Raise (HTTPError status)
                     else match body with
                          | Some v => Ok v
                          | None => Raise JSONDecodeError
                          end
                 end) with
          | Ok v => Ok (Some v)
          | Raise e => Raise e
          end), h', (mk_state w' (trace s1 ++ [(build_request client POST
                  (TableRecords doc_id table_name)
                  (Some (PDict [("records", PList (map PDict (map h' data)))])),
                answer)])), answer.
  split.
  { destruct answer as [|status body]; auto.
    destruct (is_error_status status); auto. destruct body; auto. }
  subst h'. repeat split.
  - intros l Hin Hc. rewrite stamp_all_at, Hc.
    now rewrite (proj2 (existsb_eqb_In l data) Hin).
  - intros l Hin Hc. rewrite stamp_all_at, Hc.
    now rewrite (proj2 (existsb_eqb_In l data) Hin).
  - intros l Hnot. rewrite stamp_all_at.
    destruct (existsb (Nat.eqb l) data) eqn:E; auto.
    apply existsb_eqb_In in E. contradiction.
Qed.

Lemma send_to_grist_stamps_records_witness :
  exists r h' s',
    send_to_grist grist serve date_only [0; 1; 0]%nat "key"
      "https://grist.example.com/" "ABS_Scraper_Data" "MSM_Results" "brightstar"
      false None "2025-11-04T10:00:00" example_heap (mk_state example_remote [])
    = (r, h', s')
    /\ h' 0%nat = [("date", PStr "2025-09-01");
                   ("scraped_at", PStr "2025-11-04T10:00:00")]
    /\ h' 1%nat = example_heap 1%nat.
Proof.
  destruct (send_to_grist_stamps_records grist serve date_only [0; 1; 0]%nat
              "key" "https://grist.example.com/" "ABS_Scraper_Data" "MSM_Results"
              "brightstar" false None "2025-11-04T10:00:00" example_heap
              (mk_state example_remote []) (PStr "d1")
              (snd (prepare_table grist serve date_only
                      (GristClient_init "key" "https://grist.example.com/" "brightstar")
                      (map example_heap [0; 1; 0]%nat)
                      "ABS_Scraper_Data" "MSM_Results"
                      (mk_state example_remote [])))
              ltac:(discriminate) eq_refl)
    as (r & h' & s' & answer & Hrun & Hadd & Hkeep & _ & _).
  exists r, h', s'. split; [exact Hrun|]. split.
  - apply (Hadd 0%nat); simpl; auto.
  - apply (Hkeep 1%nat); simpl; auto.
Defined.

(** ** The sample-board generators *)

(** C9, as amended: each of the three scripts writes the records it holds
    to the data sheet of its spreadsheet file and leaves the other files
    alone; [create_monday_board] writes two reference sheets, "Column
    Mapping" and "Instructions", after it, while [create_sample_board] and
    [create_msm_board] write the data sheet only. *)
Theorem generators_write_data_sheet :
  forall (sc : Boards.script) (generated : list Boards.row) (fs : Boards.files),
    exists wb,
      dict_get (Boards.written_file sc) (Boards.run sc generated fs) = Some wb
      /\ wb = {| Boards.sheet_name := Boards.data_sheet sc;
                 Boards.sheet_rows := Boards.records_of sc generated |}
              :: Boards.auxiliary_sheets (Boards.data_sheet sc) wb
      /\ map Boards.sheet_name (Boards.auxiliary_sheets (Boards.data_sheet sc) wb)
         = match sc with
           | Boards.create_monday_board => ["Column Mapping"; "Instructions"]
           | Boards.create_sample_board => []
           | Boards.create_msm_board => []
           end
      /\ forall other,
          other <> Boards.written_file sc ->
          dict_get other (Boards.run sc generated fs) = dict_get other fs.
Proof.
  intros sc generated fs.
  destruct sc; simpl;
    unfold Boards.Monday.create_monday_import_file, Boards.Sample.main,
      Boards.Msm.main; simpl;
    rewrite dict_get_set_eq; eexists; (split; [reflexivity|]);
    repeat split; intros other Hne; now apply dict_get_set_neq.
Qed.

(** C9, as first stated, fails: [create_sample_board] writes one sheet. *)
Lemma sample_board_has_no_auxiliary_sheet : ~ every_script_writes_auxiliary_sheets.
Proof.
  intros H.
  destruct (H Boards.create_sample_board [] []) as (wb & Hwb & _ & Haux).
  simpl in Hwb. injection Hwb as <-. apply Haux. reflexivity.
Qed.

(* ===================================================================== *)
(** * Further properties *)
(* ===================================================================== *)

(** ** The client's base URL *)

Lemma rstrip_slash_app_slash s : rstrip_slash (s ++ "/") = rstrip_slash s.
Proof.
  induction s as [|c s IH]; simpl; auto. now rewrite IH.
Qed.

Lemma rstrip_slash_slashes s n : rstrip_slash (s ++ slashes n) = rstrip_slash s.
Proof.
  revert s. induction n as [|n IH]; intros s; simpl.
  - f_equal. clear. induction s; simpl; congruence.
  - replace (s ++ String "/" (slashes n))%string
      with ((s ++ "/") ++ slashes n)%string.
    + now rewrite IH, rstrip_slash_app_slash.
    + clear. induction s; simpl; congruence.
Qed.

Lemma rstrip_slash_no_trailing s t : rstrip_slash s <> (t ++ "/")%string.
Proof.
  revert t. induction s as [|c s IH]; simpl; intros t.
  - destruct t; discriminate.
  - destruct (rstrip_slash s) as [|c' r] eqn:E.
    + destruct (Ascii.eqb_spec c "/").
      * destruct t; discriminate.
      * destruct t as [|a [|b t]]; simpl; try discriminate.
        intros H. inversion H. congruence.
    + destruct t as [|a t]; simpl; [discriminate|].
      intros H. inversion H. subst. apply (IH t). assumption.
Qed.

Lemma rstrip_slash_removed s : exists n, s = (rstrip_slash s ++ slashes n)%string.
Proof.
  induction s as [|c s [n IH]]; simpl.
  - exists 0%nat. reflexivity.
  - destruct (rstrip_slash s) as [|c' r] eqn:E.
    + destruct (Ascii.eqb_spec c "/").
      * subst c. exists (S n). simpl. simpl in IH. congruence.
      * exists n. simpl. simpl in IH. congruence.
    + exists n. simpl. simpl in IH. congruence.
Qed.

(** X1: the client drops the slashes at the end of the server URL, and
    nothing else: a URL given with or without them yields the same client,
    the stored URL never ends in a slash, and the base URL of every request
    is that URL followed by "/api". *)
Theorem init_strips_trailing_slashes :
  forall key url organisation n,
    GristClient_init key (url ++ slashes n) organisation
    = GristClient_init key url organisation
    /\ (forall t, server (GristClient_init key url organisation) <> (t ++ "/")%string)
    /\ (exists m, url = (server (GristClient_init key url organisation) ++ slashes m)%string)
    /\ base_url (GristClient_init key url organisation)
       = (server (GristClient_init key url organisation) ++ "/api")%string.
Proof.
  intros key url organisation n. unfold GristClient_init. simpl.
  rewrite rstrip_slash_slashes. repeat split.
  - apply rstrip_slash_no_trailing.
  - apply rstrip_slash_removed.
Qed.

(** ** The loaders *)

Lemma first_list_value_none items :
  no_list_value items = true -> first_list_value items = None.
Proof.
  induction items as [|[k v] items IH]; simpl; auto.
  destruct v; simpl; auto; discriminate.
Qed.

Lemma first_list_value_first pre k l post :
  no_list_value pre = true ->
  first_list_value (pre ++ (k, PList l) :: post) = Some l.
Proof.
  induction pre as [|[k0 v0] pre IH]; simpl; auto.
  destruct v0; simpl; auto; discriminate.
Qed.

(** X2: [load_json_data] returns a JSON array as it is; for a JSON object
    it returns the first member, in the order of the object, that is an
    array, dropping every other member, whatever that array holds (so an
    empty one gives no record at all), and the object itself as the only
    record when no member is an array; any other value comes back as a
    one-element list. *)
Theorem load_json_data_cases :
  (forall l, load_json_data (PList l) = l)
  /\ (forall pre k l post,
         no_list_value pre = true ->
         load_json_data (PDict (pre ++ (k, PList l) :: post)) = l)
  /\ (forall items,
         no_list_value items = true ->
         load_json_data (PDict items) = [PDict items])
  /\ (forall v, is_dict v = false -> (forall l, v <> PList l) ->
         load_json_data v = [v]).
Proof.
  repeat split.
  - intros pre k l post H. simpl. now rewrite first_list_value_first.
  - intros items H. simpl. now rewrite first_list_value_none.
  - intros v Hd Hl. destruct v; simpl in *; auto; try discriminate.
    exfalso. now apply (Hl items).
Qed.





(** ** Type inference and the 'Z' suffix *)

Lemma replace_Z_idempotent s : replace_Z (replace_Z s) = replace_Z s.
Proof. apply replace_Z_id. intros n. apply replace_Z_no_Z. Qed.

(** X4: writing the UTC suffix 'Z' of the string values of the first record
    as "+00:00" changes no inferred column: a timestamp gets the same type
    in either spelling. *)
Theorem infer_columns_offset_spelling :
  forall fromisoformat (sample : dict pyvalue) rest,
    infer_columns_from_data fromisoformat
      (map (fun kv => (fst kv, with_offset (snd kv))) sample :: rest)
    = infer_columns_from_data fromisoformat (sample :: rest).
Proof.
  intros f sample rest. simpl. rewrite map_map. apply map_ext.
  intros [k v]. simpl. f_equal. f_equal.
  destruct v; simpl; auto.
  unfold infer_type. simpl. now rewrite replace_Z_idempotent.
Qed.

(** ** The timestamp loop, again *)

Lemma contains_after_append (d : dict pyvalue) k v :
  dict_contains k (d ++ [(k, v)]) = true.
Proof.
  unfold dict_contains. induction d as [|[k0 v0] d IH]; simpl.
  - now rewrite String.eqb_refl.
  - destruct (String.eqb k0 k); auto.
Qed.

Lemma dict_get_append_other (d : dict pyvalue) k k' v :
  k' <> k -> dict_get k (d ++ [(k', v)]) = dict_get k d.
Proof.
  intros Hne. induction d as [|[k0 v0] d IH]; simpl.
  - destruct (String.eqb_spec k' k); congruence.
  - destruct (String.eqb k0 k); auto.
Qed.

(** X5: stamping is done once per object: when records that were sent
    before, with timestamp [t1], are sent again, alone or among others, at
    [t2], they keep the "scraped_at" of the first time. *)
Theorem stamp_all_keeps_first_timestamp :
  forall t1 t2 (data1 data2 : list loc) (h : heap) (l : loc),
    In l data1 ->
    stamp_all t2 data2 (stamp_all t1 data1 h) l = stamp_all t1 data1 h l.
Proof.
  intros t1 t2 data1 data2 h l Hin.
  rewrite (stamp_all_at t2 data2). rewrite (stamp_all_at t1 data1 h l).
  rewrite (proj2 (existsb_eqb_In l data1) Hin).
  destruct (dict_contains "scraped_at" (h l)) eqn:E.
  - rewrite E. now destruct (existsb (Nat.eqb l) data2).
  - rewrite contains_after_append. now destruct (existsb (Nat.eqb l) data2).
Qed.

Example stamp_all_keeps_first_timestamp_witness :
  stamp_all "2025-11-05T09:00:00" [0; 1]%nat
    (stamp_all "2025-11-04T10:00:00" [0]%nat example_heap) 0%nat
  = [("date", PStr "2025-09-01"); ("scraped_at", PStr "2025-11-04T10:00:00")].
Proof.
  rewrite (stamp_all_keeps_first_timestamp "2025-11-04T10:00:00"
             "2025-11-05T09:00:00" [0]%nat [0; 1]%nat example_heap 0%nat).
  - reflexivity.
  - simpl. auto.
Defined.

(** X6: whatever the transport answers and however [send_to_grist] ends,
    with a result or with an exception, the only change it makes to the
    caller's records is to append a "scraped_at" item to records of [data]
    that have none: no value of any key is replaced or removed, and no
    other object is touched. *)
Theorem send_to_grist_only_appends_timestamp :
  forall World (requests_request : request -> World -> reply * World)
         fromisoformat (data : list loc) key url doc_name table_name organisation
         upsert key_columns timestamp (h : heap) (s : state World) (l : loc),
    let h' := snd (fst (send_to_grist World requests_request fromisoformat data
                          key url doc_name table_name organisation upsert
                          key_columns timestamp h s)) in
    (h' l = h l
     \/ (In l data /\ dict_contains "scraped_at" (h l) = false
         /\ h' l = h l ++ [("scraped_at", PStr timestamp)]))
    /\ (forall k v, dict_get k (h l) = Some v -> dict_get k (h' l) = Some v).
Proof.
  intros World rr f data key url doc_name table_name organisation upsert kc ts
         h s l h'.
  assert (Hcases : (forall l', h' l' = h l') \/ (forall l', h' l' = stamp_all ts data h l')).
  { subst h'. unfold send_to_grist. destruct data as [|l0 rest]; [left; reflexivity|].
    destruct (prepare_table _ _ _ _ _ _ _ _) as [[doc_id|e] s1]; [|left; reflexivity].
    match goal with
    | |- context [match ?u s1 with _ => _ end] => destruct (u s1) as [[v|e] s2]
    end; right; reflexivity. }
  assert (Hstamp : stamp_all ts data h l = h l
                   \/ (In l data /\ dict_contains "scraped_at" (h l) = false
                       /\ stamp_all ts data h l = h l ++ [("scraped_at", PStr ts)])).
  { rewrite stamp_all_at. destruct (existsb (Nat.eqb l) data) eqn:E; auto.
    apply existsb_eqb_In in E.
    destruct (dict_contains "scraped_at" (h l)) eqn:Hc; auto. }
  assert (Hmain : h' l = h l
                  \/ (In l data /\ dict_contains "scraped_at" (h l) = false
                      /\ h' l = h l ++ [("scraped_at", PStr ts)])).
  { destruct Hcases as [H|H]; rewrite H; auto. }
  split; [exact Hmain|].
  intros k v Hget. destruct Hmain as [->|(_ & Hc & ->)]; auto.
  rewrite dict_get_append_other; auto.
  intros <-. unfold dict_contains in Hc. now rewrite Hget in Hc.
Qed.

(** ** The script of [grist_client.py] *)

(** X7: the script checks for fewer than four entries in [sys.argv] but
    reads [sys.argv[4]]: with fewer than three arguments it exits with
    status 1, with exactly three it passes the check and stops on an
    [IndexError], and in both cases nothing is sent; a request is only ever
    sent when the table name, the fourth argument, is there. *)
Theorem client_main_needs_four_arguments :
  forall World (requests_request : request -> World -> reply * World)
         fromisoformat (argv : list string) now1 now2 (s : state World),
    let out := client_main World requests_request fromisoformat argv now1 now2 s in
    (length argv < 4 -> out = (SysExit 1, s))
    /\ (length argv = 4 -> out = (IndexError, s))
    /\ (snd out <> s -> 5 <= length argv).
Proof.
  intros World rr f argv now1 now2 s out. subst out. unfold client_main.
  destruct argv as [|a0 [|a1 [|a2 [|a3 [|a4 argv]]]]]; simpl;
    repeat split; intros; try lia; try reflexivity; try congruence.
Qed.

(** ** What a computation sends *)

Section Emits.
Variable World : Type.
Variable requests_request : request -> World -> reply * World.
Variable self : GristClient.

Lemma bind_assoc {A B C} (m : M World A) (f : A -> M World B) (g : B -> M World C) s :
  bind World (bind World m f) g s = bind World m (fun a => bind World (f a) g) s.
Proof. unfold bind. destruct (m s) as [[a|e] s']; reflexivity. Qed.

Lemma emits_ext {A} Q (m m' : M World A) :
  (forall s, m s = m' s) -> emits Q m' -> emits Q m.
Proof. intros H Hm s. rewrite H. apply Hm. Qed.

Lemma emits_assoc {A B C} Q (m : M World A) (f : A -> M World B)
    (g : B -> M World C) :
  emits Q (bind World m (fun a => bind World (f a) g)) ->
  emits Q (bind World (bind World m f) g).
Proof. apply emits_ext. intros s. apply bind_assoc. Qed.

Lemma emits_and {A} Q1 Q2 (m : M World A) :
  emits Q1 m -> emits Q2 m -> emits (fun l => Q1 l /\ Q2 l) m.
Proof.
  intros H1 H2 s. destruct (H1 s) as (evs & Ht & HQ1).
  destruct (H2 s) as (evs' & Ht' & HQ2).
  rewrite Ht in Ht'. apply app_inv_head in Ht'. subst evs'. eauto.
Qed.

Lemma within_nil P w n : within P w n [].
Proof. split; [constructor | apply Nat.le_0_l]. Qed.

Lemma within_cons P w n r l :
  P r -> w r <= n -> within P w (n - w r) l -> within P w n (r :: l).
Proof.
  intros HP Hw [HF Hc]. split; [now constructor|].
  unfold cost in *. simpl. lia.
Qed.

Lemma emits_ret {A} P w n (a : A) : emits (within P w n) (ret World a).
Proof.
  intros s. exists []. simpl. rewrite app_nil_r. split; auto. apply within_nil.
Qed.

Lemma emits_raise {A} P w n e : emits (within P w n) (@raise World A e).
Proof.
  intros s. exists []. simpl. rewrite app_nil_r. split; auto. apply within_nil.
Qed.

Lemma emits_lift {A} P w n (r : result A) : emits (within P w n) (lift World r).
Proof.
  intros s. exists []. simpl. rewrite app_nil_r. split; auto. apply within_nil.
Qed.

Lemma emits_request (P : request -> Prop) w n method ep data :
  P (build_request self method ep data) ->
  w (build_request self method ep data) <= n ->
  emits (within P w n) (_request World requests_request self method ep data).
Proof.
  intros HP Hw s. rewrite request_run. simpl.
  eexists. split; [reflexivity|]. simpl.
  apply within_cons; auto. apply within_nil.
Qed.

Lemma emits_bind_lift {A B} P w n (r : result A) (k : A -> M World B) :
  (forall a, emits (within P w n) (k a)) ->
  emits (within P w n) (bind World (lift World r) k).
Proof.
  intros Hk s. unfold bind, lift. destruct r as [a|e].
  - apply Hk.
  - exists []. simpl. rewrite app_nil_r. split; auto. apply within_nil.
Qed.

Lemma emits_bind_ret {A B} P w n (a : A) (k : A -> M World B) :
  emits (within P w n) (k a) ->
  emits (within P w n) (bind World (ret World a) k).
Proof. intros Hk s. unfold bind, ret. apply Hk. Qed.

Lemma emits_bind_raise {A B} P w n e (k : A -> M World B) :
  emits (within P w n) (bind World (raise World e) k).
Proof.
  intros s. exists []. simpl. rewrite app_nil_r. split; auto. apply within_nil.
Qed.

Lemma emits_bind_request {B} (P : request -> Prop) w n method ep data
    (k : pyvalue -> M World B) :
  P (build_request self method ep data) ->
  w (build_request self method ep data) <= n ->
  (forall a, emits (within P w (n - w (build_request self method ep data))) (k a)) ->
  emits (within P w n)
    (bind World (_request World requests_request self method ep data) k).
Proof.
  intros HP Hw Hk s. unfold bind. rewrite request_run. cbv zeta.
  set (req := build_request self method ep data) in *.
  set (r := fst (requests_request req (remote s))).
  set (s1 := {| remote := snd (requests_request req (remote s));
                trace := trace s ++ [(req, r)] |}).
  assert (Hfail : exists evs,
             trace s1 = trace s ++ evs /\ within P w n (map fst evs)).
  { exists [(req, r)]. split; [reflexivity|]. simpl.
    apply within_cons; auto. apply within_nil. }
  destruct r as [|status body]; [exact Hfail|].
  destruct (is_error_status status); [exact Hfail|].
  destruct body as [v|]; [|exact Hfail].
  destruct (Hk v s1) as (evs & Ht & Hin).
  exists ((req, Response status (Some v)) :: evs). split.
  - rewrite Ht. subst s1. simpl. now rewrite <- app_assoc.
  - simpl. apply within_cons; auto.
Qed.
End Emits.

Lemma cost_one_length (reqs : list request) :
  cost (fun _ => 1) reqs = length reqs.
Proof.
  unfold cost. induction reqs as [|r reqs IH]; simpl; auto.
Qed.

Ltac weigh := unfold write_weight, records_weight; simpl.

Ltac emits_step solveP :=
  lazymatch goal with
  | |- emits _ (bind _ (bind _ _ _) _) =>
      apply emits_assoc; cbv beta
  | |- emits _ (bind _ (_request _ _ _ _ _ _) _) =>
      apply emits_bind_request;
      [solveP | weigh; lia | intros ?; weigh]
  | |- emits _ (bind _ (lift _ _) _) => apply emits_bind_lift; intros ?
  | |- emits _ (bind _ (ret _ _) _) => apply emits_bind_ret
  | |- emits _ (bind _ (raise _ _) _) => apply emits_bind_raise
  | |- emits _ (bind _ (match ?x with _ => _ end) _) => destruct x
  | |- emits _ (bind _ (if ?b then _ else _) _) => destruct b
  | |- emits _ (_request _ _ _ _ _ _) =>
      apply emits_request; [solveP | weigh; lia]
  | |- emits _ (ret _ _) => apply emits_ret
  | |- emits _ (raise _ _) => apply emits_raise
  | |- emits _ (lift _ _) => apply emits_lift
  | |- emits _ (match ?x with _ => _ end) => destruct x
  | |- emits _ (if ?b then _ else _) => destruct b
  end.

Ltac unfold_client :=
  unfold prepare_table, get_or_create_document, ensure_table, upsert_records,
    list_documents, resolve_workspace_id, get_workspace, list_tables,
    get_table_schema, create_table, add_records, list_workspaces.

Ltac solve_about_table := solve [simpl; unfold about_table; simpl; auto].

(** X8: whatever the server answers, one call of [ensure_table] sends at
    most three requests, all of them about the tables of the given document
    or the columns of the given table, and at most one of them is a write (a
    table creation or a columns patch, never both). *)
Theorem ensure_table_request_budget :
  forall World (requests_request : request -> World -> reply * World)
         self doc_id table_id columns (s : state World),
    exists evs,
      trace (snd (ensure_table World requests_request self doc_id table_id columns s))
      = trace s ++ evs
      /\ length evs <= 3
      /\ Forall (about_table doc_id table_id) (map fst evs)
      /\ cost write_weight (map fst evs) <= 1.
Proof.
  intros World rr self doc_id tid columns s.
  assert (H1 : emits (within (about_table doc_id tid) (fun _ => 1) 3)
                 (ensure_table World rr self doc_id tid columns))
    by (unfold_client; repeat emits_step solve_about_table).
  assert (H2 : emits (within (about_table doc_id tid) write_weight 1)
                 (ensure_table World rr self doc_id tid columns))
    by (unfold_client; repeat emits_step solve_about_table).
  destruct (emits_and _ _ _ _ H1 H2 s) as (evs & Ht & [Hf Hc] & [_ Hw]).
  exists evs. repeat split; auto.
  rewrite cost_one_length, length_map in Hc. exact Hc.
Qed.

Section EmitsBind.
Variable World : Type.

Lemma emits_bind {A B} (Q1 Q2 Q : list request -> Prop)
    (m : M World A) (k : A -> M World B) :
  emits Q1 m ->
  (forall a, emits Q2 (k a)) ->
  (forall l1, Q1 l1 -> Q l1) ->
  (forall l1 l2, Q1 l1 -> Q2 l2 -> Q (l1 ++ l2)) ->
  emits Q (bind World m k).
Proof.
  intros Hm Hk Hfail Happ s. unfold bind.
  destruct (Hm s) as (evs1 & Ht1 & HQ1).
  destruct (m s) as [[a|e] s1]; simpl in *.
  - destruct (Hk a s1) as (evs2 & Ht2 & HQ2).
    exists (evs1 ++ evs2). rewrite Ht2, Ht1, app_assoc, map_app. auto.
  - exists evs1. auto.
Qed.
End EmitsBind.

Ltac solve_request_of :=
  solve [split; [reflexivity|];
         split; [reflexivity|];
         split; intros H; (reflexivity || discriminate H)].

Lemma cost_app w (l1 l2 : list request) : cost w (l1 ++ l2) = cost w l1 + cost w l2.
Proof. unfold cost. now rewrite map_app, list_sum_app. Qed.

(** X9: whatever the server answers, one call of [send_to_grist] sends at
    most eleven requests; each has the client's base URL and the header
    "Authorization: Bearer <api key>", and has a JSON body exactly when it
    is not a GET; at most one of them goes to the records endpoint, and
    when one does it is the last request of the call. *)
Theorem send_to_grist_requests :
  forall World (requests_request : request -> World -> reply * World)
         fromisoformat (data : list loc) key url doc_name table_name organisation
         upsert key_columns timestamp (h : heap) (s : state World),
    exists evs,
      trace (snd (send_to_grist World requests_request fromisoformat data key url
                    doc_name table_name organisation upsert key_columns timestamp
                    h s))
      = trace s ++ evs
      /\ length evs <= 11
      /\ Forall (request_of (GristClient_init key url organisation)) (map fst evs)
      /\ Forall (fun req => dict_get "Authorization" (req_headers req)
                            = Some ("Bearer " ++ key)%string) (map fst evs)
      /\ cost records_weight (map fst evs) <= 1
      /\ (forall pre req post,
             map fst evs = pre ++ req :: post ->
             records_weight req = 1 -> post = []).
Proof.
  intros World rr f data key url doc_name table_name organisation upsert kc ts h s.
  set (client := GristClient_init key url organisation).
  set (Q := fun reqs : list request =>
              length reqs <= 11
              /\ Forall (request_of client) reqs
              /\ cost records_weight reqs <= 1
              /\ (forall pre req post,
                     reqs = pre ++ req :: post ->
                     records_weight req = 1 -> post = [])).
  assert (Hgoal : exists evs,
             trace (snd (send_to_grist World rr f data key url doc_name table_name
                           organisation upsert kc ts h s)) = trace s ++ evs
             /\ Q (map fst evs)).
  { assert (Hnil : Q []).
    { unfold Q. simpl. repeat split; auto; try lia.
      intros pre req post H. destruct pre; discriminate. }
    unfold send_to_grist. destruct data as [|l0 rest].
    { exists []. simpl. rewrite app_nil_r. auto. }
    fold client. set (data := l0 :: rest).
    set (records := map (stamp_all ts data h) data).
    set (upload := fun doc_id =>
                     if upsert
                     then upsert_records World rr client doc_id table_name records kc
                     else add_records World rr client doc_id table_name records).
    set (prep := prepare_table World rr f client (map h data) doc_name table_name).
    assert (Hsame : trace (snd
               (match prep s with
                | (Ok doc_id, s1) =>
                    match upload doc_id s1 with
                    | (Ok v, s2) => (Ok (Some v), stamp_all ts data h, s2)
                    | (Raise e, s2) => (Raise e, stamp_all ts data h, s2)
                    end
                | (Raise e, s1) => (Raise e, h, s1)
                end))
             = trace (snd (bind World prep upload s))).
    { unfold bind. destruct (prep s) as [[doc_id|e] s1]; auto.
      destruct (upload doc_id s1) as [[v|e] s2]; auto. }
    subst upload. cbv beta in Hsame. rewrite Hsame.
    apply (emits_bind World
             (fun l => within (request_of client) (fun _ => 1) 10 l
                       /\ within (request_of client) records_weight 0 l)
             (fun l => exists req, l = [req] /\ request_of client req)).
    - apply emits_and; subst prep;
        unfold_client; repeat emits_step solve_request_of.
    - intros doc_id s1.
      assert (Hadd : (if upsert
                      then upsert_records World rr client doc_id table_name records kc
                      else add_records World rr client doc_id table_name records) s1
                     = add_records World rr client doc_id table_name records s1).
      { destruct upsert; auto. unfold upsert_records. now destruct kc. }
      rewrite Hadd. unfold add_records. rewrite request_run. simpl.
      eexists. split; [reflexivity|]. simpl. eexists. split; [reflexivity|].
      solve_request_of.
    - intros l1 [[Hf Hc] [_ Hr]]. rewrite cost_one_length in Hc.
      unfold Q. repeat split; auto; try lia.
      intros pre req post -> Hw. rewrite cost_app in Hr.
      unfold cost in Hr. simpl in Hr. lia.
    - intros l1 l2 [[Hf Hc] [_ Hr]] (req & -> & Hreq).
      rewrite cost_one_length in Hc.
      unfold Q. rewrite length_app, cost_app. simpl. repeat split.
      + lia.
      + apply Forall_app. auto.
      + unfold cost at 2. simpl. unfold records_weight at 2.
        destruct (req_endpoint req); lia.
      + intros pre r post Heq Hw.
        destruct post as [|p post]; auto. exfalso.
        assert (Hl1 : l1 = pre ++ r :: removelast (p :: post)).
        { apply (f_equal (@removelast _)) in Heq.
          rewrite removelast_last in Heq. rewrite Heq.
          rewrite removelast_app by discriminate. reflexivity. }
        rewrite Hl1, cost_app in Hr. unfold cost in Hr. simpl in Hr. lia. }
  destruct Hgoal as (evs & Ht & Hlen & Hf & Hc & Hlast).
  exists evs. rewrite length_map in Hlen. repeat split; auto.
  eapply Forall_impl; [|exact Hf].
  intros req (_ & Hh & _). rewrite Hh. reflexivity.
Qed.

(** ** The payload of a table creation *)

Lemma dict_keys_set_list {V} k (v : V) d :
  dict_keys (dict_set k v d)
  = if str_in k (dict_keys d) then dict_keys d else dict_keys d ++ [k].
Proof.
  unfold dict_keys, str_in. induction d as [|[k0 v0] d IH]; simpl; auto.
  rewrite (String.eqb_sym k k0).
  destruct (String.eqb k0 k); simpl; auto.
  rewrite IH. now destruct (existsb (String.eqb k) (map fst d)).
Qed.

Lemma dict_keys_update {V} (kvs : list (string * V)) d :
  dict_keys (dict_update kvs d)
  = fold_left (fun acc x => if str_in x acc then acc else acc ++ [x])
      (map fst kvs) (dict_keys d).
Proof.
  unfold dict_update. revert d.
  induction kvs as [|[k v] kvs IH]; intros d; simpl; auto.
  rewrite IH. now rewrite dict_keys_set_list.
Qed.

Lemma dict_keys_encode d : dict_keys (encode_types d) = dict_keys d.
Proof. unfold dict_keys, encode_types. rewrite map_map. reflexivity. Qed.

(** X10: the columns object that [create_table] sends has one entry per
    distinct column id, in the order in which the ids first occur in the
    list; each entry holds the type that the last definition with that id
    declares, "Text" when that definition has no "type" key. *)
Theorem columns_data_entries :
  forall columns,
    dict_keys (columns_data columns) = first_occurrences (map col_id columns)
    /\ NoDup (dict_keys (columns_data columns))
    /\ (forall id,
           dict_get id (columns_data columns)
           = option_map (fun ty => PDict [("type", PStr ty)])
               (last_declared_type id columns))
    /\ (forall pre col post,
           columns = pre ++ col :: post ->
           ~ In (col_id col) (map col_id post) ->
           dict_get (col_id col) (columns_data columns)
           = Some (PDict [("type", PStr (match col_type col with
                                         | Some ty => ty
                                         | None => "Text"
                                         end))]))
    /\ (forall col, In col columns -> dict_contains (col_id col) (columns_data columns) = true).
Proof.
  intros columns. repeat split.
  - rewrite columns_data_encode, dict_keys_encode, dict_keys_update.
    unfold first_occurrences, id_types. rewrite map_map. reflexivity.
  - rewrite columns_data_encode, dict_keys_encode.
    apply dict_update_nodup. constructor.
  - intros id. apply columns_data_declared.
  - intros pre col post -> Hlast. rewrite columns_data_declared.
    replace (last_declared_type (col_id col) (pre ++ col :: post))
      with (Some (declared_type col)); [reflexivity|].
    symmetry. clear -Hlast. induction pre as [|c pre IH]; simpl.
    + rewrite last_declared_type_absent by assumption.
      now rewrite String.eqb_refl.
    + now rewrite IH.
  - intros col Hin. unfold dict_contains. rewrite columns_data_declared.
    rewrite <- required_type_declared.
    pose proof (required_type_In col columns Hin).
    now destruct (required_type (col_id col) columns).
Qed.

(** ** Looking a workspace up *)

Lemma find_workspace_dicts name items :
  forallb is_dict items = true ->
  find_workspace name items = Ok (find (workspace_matches name) items).
Proof.
  induction items as [|ws items IH]; simpl; auto.
  intros H. apply andb_prop in H as [Hd Hrest].
  destruct ws; try discriminate. simpl.
  destruct (py_opt_eq_str (dict_get "id" items0) name); simpl; auto.
  destruct (py_opt_eq_str (dict_get "name" items0) name); simpl; auto.
Qed.

(** X11: when the server answers the workspace listing with a list of JSON
    objects, [get_workspace] returns the first one whose "id" or "name" is
    the given string (the client's org when none is given) and raises
    [ValueError], naming it, when there is none; an "id" that is a number
    never equals the string, so such a workspace is found by its name
    only. *)
Theorem get_workspace_first_match :
  forall World (requests_request : request -> World -> reply * World)
         self workspace_id (s : state World) status items,
    fst (requests_request (build_request self GET Workspaces None) (remote s))
    = Response status (Some (PList items)) ->
    is_error_status status = false ->
    forallb is_dict items = true ->
    let name := match workspace_id with Some w => w | None => org self end in
    fst (get_workspace World requests_request self workspace_id s)
    = match find (workspace_matches name) items with
      | Some ws => Ok ws
      | None => Raise (ValueError ("Workspace '" ++ name ++ "' not found")%string)
      end
    /\ (forall d n,
           dict_get "id" d = Some (PInt n) ->
           workspace_matches name (PDict d)
           = py_opt_eq_str (dict_get "name" d) name).
Proof.
  intros World rr self workspace_id s status items Hreply Hstatus Hdicts name.
  split.
  - unfold get_workspace, list_workspaces, bind. fold name.
    rewrite request_run. cbv zeta. rewrite Hreply, Hstatus. simpl.
    rewrite (find_workspace_dicts _ _ Hdicts).
    destruct (find (workspace_matches name) items); reflexivity.
  - intros d n Hid. simpl. rewrite Hid. reflexivity.
Qed.

Lemma get_workspace_first_match_witness :
  fst (get_workspace grist serve example_client None (mk_state example_remote []))
  = Ok (PDict [("id", PInt 7); ("name", PStr "brightstar")]).
Proof.
  apply (get_workspace_first_match grist serve example_client None
           (mk_state example_remote []) 200
           [PDict [("id", PInt 7); ("name", PStr "brightstar")]]);
    reflexivity.
Defined.

(** ** More on the client against the remote side *)

Lemma bind_ok_inv {World A B} (m : M World A) (k : A -> M World B) s b s' :
  bind World m k s = (Ok b, s') ->
  exists a s1, m s = (Ok a, s1) /\ k a s1 = (Ok b, s').
Proof.
  unfold bind. destruct (m s) as [[a|e] s1]; [eauto | discriminate].
Qed.

Lemma table_of_set_tables_other g d doc ts d' t :
  dict_get d (docs g) = Some doc ->
  (d' <> d \/ dict_get t ts = dict_get t (d_tables doc)) ->
  table_of (set_tables g d doc ts) d' t = table_of g d' t.
Proof.
  intros Hd Hcase. unfold table_of, set_tables. simpl.
  destruct (String.eqb_spec d d') as [<-|Hne].
  - rewrite dict_get_set_eq, Hd. simpl.
    destruct Hcase as [H|H]; [congruence | exact H].
  - now rewrite dict_get_set_neq.
Qed.

(** X12: [ensure_table] changes nothing but the table it is called for,
    whether it returns or raises: the workspaces, every other document and
    every other table of the same document stay as they are; and of that
    table it keeps the rows and every column, with its type. *)
Theorem ensure_table_frame :
  forall (g : grist) self doc_id table_id columns tr,
    let g' := remote (snd (ensure_table grist serve self doc_id table_id columns
                             (mk_state g tr))) in
    workspaces g' = workspaces g
    /\ next_doc g' = next_doc g
    /\ (forall d t, doc_id <> PStr d \/ t <> table_id ->
          table_of g' d t = table_of g d t)
    /\ (forall d t0,
          doc_id = PStr d -> table_of g d table_id = Some t0 ->
          exists t1,
            table_of g' d table_id = Some t1
            /\ tbl_records t1 = tbl_records t0
            /\ (forall id ty, dict_get id (tbl_columns t0) = Some ty ->
                  dict_get id (tbl_columns t1) = Some ty)).
Proof.
  intros g self doc_id tid columns tr g'. subst g'.
  destruct (ensure_table_run self g doc_id tid columns tr) as [evs Hrun].
  destruct (find_doc g doc_id) as [[d0 doc]|] eqn:Hdoc.
  2:{ destruct Hrun as [-> _]. simpl. repeat split; eauto. }
  destruct (find_doc_PStr _ _ _ _ Hdoc) as [-> Hd].
  assert (Hsame : forall t0 d, PStr d0 = PStr d -> table_of g d tid = Some t0 ->
                    exists t1, table_of g d tid = Some t1
                      /\ tbl_records t1 = tbl_records t0
                      /\ (forall id ty, dict_get id (tbl_columns t0) = Some ty ->
                            dict_get id (tbl_columns t1) = Some ty)) by eauto.
  destruct (dict_get tid (d_tables doc)) as [t|] eqn:Ht.
  - destruct (missing_columns (tbl_columns t) columns) as [|c cs] eqn:Hm.
    + destruct Hrun as [-> _]. simpl. repeat split; eauto.
    + rewrite <- Hm in Hrun. destruct Hrun as [-> _]. simpl. repeat split; auto.
      * intros d t' Hcase. apply table_of_set_tables_other; auto.
        destruct (String.eqb_spec d d0) as [->|Hne]; auto.
        destruct Hcase as [H|H]; [congruence|].
        right. now apply dict_get_set_neq.
      * intros d t0 Heq Ht0. injection Heq as <-.
        rewrite table_of_set_tables, dict_get_set_eq.
        unfold table_of in Ht0. rewrite Hd, Ht in Ht0. injection Ht0 as <-.
        eexists. split; [reflexivity|]. simpl. split; auto.
        intros id ty Hget. now rewrite patched_get, Hget.
  - destruct Hrun as [-> _]. simpl. repeat split; auto.
    + intros d t' Hcase. apply table_of_set_tables_other; auto.
      destruct (String.eqb_spec d d0) as [->|Hne]; auto.
      destruct Hcase as [H|H]; [congruence|].
      right. now apply dict_get_set_neq.
    + intros d t0 Heq Ht0. injection Heq as <-.
      unfold table_of in Ht0. rewrite Hd, Ht in Ht0. discriminate.
Qed.

Section EndToEnd.
Variable self : GristClient.

(** What a successful [ensure_table] leaves. *)
Lemma ensure_table_ok g doc_id tid columns tr s' :
  ensure_table grist serve self doc_id tid columns (mk_state g tr) = (Ok tt, s') ->
  exists d t',
    doc_id = PStr d
    /\ table_of (remote s') d tid = Some t'
    /\ (forall id,
           dict_get id (tbl_columns t')
           = match match table_of g d tid with
                   | Some t => dict_get id (tbl_columns t)
                   | None => None
                   end with
             | Some ty => Some ty
             | None => required_type id columns
             end).
Proof.
  intros Hrun.
  destruct (ensure_table_run self g doc_id tid columns tr) as [evs Hcase].
  destruct (find_doc g doc_id) as [[d doc]|] eqn:Hdoc.
  2:{ destruct Hcase as [Hc _]. rewrite Hc in Hrun. discriminate. }
  destruct (find_doc_PStr _ _ _ _ Hdoc) as [Hid Hd].
  exists d. rewrite (table_of_find_doc _ _ _ _ tid Hdoc).
  destruct (dict_get tid (d_tables doc)) as [t|] eqn:Ht.
  - destruct (missing_columns (tbl_columns t) columns) as [|c cs] eqn:Hm.
    + destruct Hcase as [Hc _]. rewrite Hc in Hrun. inversion Hrun; subst s'.
      exists t. simpl. rewrite (table_of_find_doc _ _ _ _ tid Hdoc), Ht.
      repeat split; auto.
      intros id. destruct (dict_get id (tbl_columns t)) eqn:E; auto.
      pose proof (required_type_missing id (tbl_columns t) columns) as Hr.
      rewrite Hm in Hr. unfold dict_contains in Hr. rewrite E in Hr.
      now rewrite <- Hr.
    + rewrite <- Hm in Hcase. destruct Hcase as [Hc _].
      rewrite Hc in Hrun. inversion Hrun; subst s'. simpl.
      rewrite table_of_set_tables, dict_get_set_eq.
      eexists. repeat split; auto. simpl. intros id. apply patched_get.
  - destruct Hcase as [Hc _]. rewrite Hc in Hrun. inversion Hrun; subst s'. simpl.
    rewrite table_of_set_tables, dict_get_set_eq.
    eexists. repeat split; auto. simpl. intros id. apply typed_get.
Qed.

Lemma add_records_ok g d tid t records tr r s' :
  table_of g d tid = Some t ->
  add_records grist serve self (PStr d) tid records (mk_state g tr) = (r, s') ->
  table_of (remote s') d tid
  = Some {| tbl_columns := tbl_columns t;
            tbl_records := tbl_records t ++ records |}.
Proof.
  intros Ht Hrun. unfold table_of in Ht.
  destruct (dict_get d (docs g)) as [doc|] eqn:Hd; [|discriminate].
  assert (Hdoc : find_doc g (PStr d) = Some (d, doc)).
  { unfold find_doc. now rewrite Hd. }
  unfold add_records in Hrun. rewrite request_run in Hrun. simpl in Hrun.
  rewrite (serve_add_records self _ _ _ _ _ _ _ Hdoc Ht) in Hrun. simpl in Hrun.
  inversion Hrun; subst. simpl.
  now rewrite table_of_set_tables, dict_get_set_eq.
Qed.
End EndToEnd.

Lemma infer_columns_required f (sample : dict pyvalue) rest k :
  In k (dict_keys sample) ->
  required_type k (infer_columns_from_data f (sample :: rest)) <> None.
Proof.
  intros Hin. unfold dict_keys in Hin. apply in_map_iff in Hin as ([k0 v] & <- & Hkv).
  apply (required_type_In
           {| col_id := k0; col_type := Some (infer_type f v) |}).
  simpl. apply in_map_iff. exists (k0, v). auto.
Qed.

Lemma infer_columns_ids f (sample : dict pyvalue) rest :
  map col_id (infer_columns_from_data f (sample :: rest)) = dict_keys sample.
Proof. simpl. unfold dict_keys. rewrite map_map. reflexivity. Qed.

(** X13: when [send_to_grist] returns a result on the remote side, the
    table it named exists there, has a column for every key of the first
    record and a "scraped_at" column, and ends with the records of [data],
    in order, as the call left them.  (Keys that only later records have
    get no column.) *)
Theorem send_to_grist_fills_prepared_table :
  forall (g : grist) fromisoformat l0 rest key url doc_name table_name
         organisation upsert key_columns timestamp (h : heap) tr v h' s',
    send_to_grist grist serve fromisoformat (l0 :: rest) key url doc_name
      table_name organisation upsert key_columns timestamp h (mk_state g tr)
    = (Ok (Some v), h', s') ->
    exists d t before,
      table_of (remote s') d table_name = Some t
      /\ (forall k, In k (dict_keys (h l0)) ->
            dict_contains k (tbl_columns t) = true)
      /\ dict_contains "scraped_at" (tbl_columns t) = true
      /\ tbl_records t = before ++ map h' (l0 :: rest).
Proof.
  intros g f l0 rest key url doc_name tid organisation upsert kc ts h tr v h' s' Hrun.
  unfold send_to_grist in Hrun.
  set (client := GristClient_init key url organisation) in *.
  set (data := l0 :: rest) in *.
  destruct (prepare_table grist serve f client (map h data) doc_name tid
              (mk_state g tr)) as [[doc_id|e] s1] eqn:Hprep; [|discriminate].
  assert (Hup : (if upsert
                 then upsert_records grist serve client doc_id tid
                        (map (stamp_all ts data h) data) kc
                 else add_records grist serve client doc_id tid
                        (map (stamp_all ts data h) data)) s1
                = add_records grist serve client doc_id tid
                    (map (stamp_all ts data h) data) s1).
  { destruct upsert; auto. unfold upsert_records. now destruct kc. }
  rewrite Hup in Hrun.
  destruct (add_records grist serve client doc_id tid
              (map (stamp_all ts data h) data) s1) as [[v0|e] s2] eqn:Hadd;
    [|discriminate].
  inversion Hrun; subst v0 h' s2. clear Hrun Hup.
  unfold prepare_table in Hprep.
  apply bind_ok_inv in Hprep as (doc & sA & _ & Hprep).
  apply bind_ok_inv in Hprep as (doc_id' & sA' & Hid & Hprep).
  unfold lift in Hid. inversion Hid; subst sA'. clear Hid.
  apply bind_ok_inv in Hprep as ([] & sB & Hens1 & Hprep).
  apply bind_ok_inv in Hprep as ([] & sC & Hens2 & Hret).
  unfold ret in Hret. inversion Hret; subst doc_id' sC. clear Hret.
  destruct sA as [gA trA]. destruct sB as [gB trB].
  destruct (ensure_table_ok client gA doc_id tid _ trA _ Hens1)
    as (d & t1 & -> & Ht1 & Hcols1).
  simpl in Ht1.
  assert (Hkeys1 : forall k, In k (dict_keys (h l0)) ->
                     dict_contains k (tbl_columns t1) = true).
  { intros k Hin. unfold dict_contains. rewrite Hcols1.
    destruct (match table_of gA d tid with
              | Some t => dict_get k (tbl_columns t)
              | None => None
              end); auto.
    pose proof (infer_columns_required f (h l0) (map h rest) k Hin) as Hreq.
    simpl map in Hreq |- *.
    now destruct (required_type k _). }
  assert (Hfinal : exists t2,
             table_of (remote s1) d tid = Some t2
             /\ (forall k, In k (dict_keys (h l0)) ->
                   dict_contains k (tbl_columns t2) = true)
             /\ dict_contains "scraped_at" (tbl_columns t2) = true).
  { destruct (negb (str_in "scraped_at"
                      (map col_id (infer_columns_from_data f (map h data)))))
      eqn:Hsc.
    - destruct (ensure_table_ok client gB (PStr d) tid _ trB _ Hens2)
        as (d' & t2 & Hd' & Ht2 & Hcols2).
      injection Hd' as <-. rewrite Ht1 in Hcols2.
      exists t2. split; [exact Ht2|]. split.
      + intros k Hin. specialize (Hkeys1 k Hin). unfold dict_contains in *.
        rewrite Hcols2. now destruct (dict_get k (tbl_columns t1)).
      + unfold dict_contains. rewrite Hcols2.
        now destruct (dict_get "scraped_at" (tbl_columns t1)).
    - unfold ret in Hens2. inversion Hens2; subst s1. simpl.
      exists t1. split; [exact Ht1|]. split; [exact Hkeys1|].
      apply Hkeys1. apply negb_false_iff in Hsc.
      change (map h data) with (h l0 :: map h rest) in Hsc.
      rewrite infer_columns_ids in Hsc.
      unfold str_in in Hsc. apply existsb_exists in Hsc as (k & Hin & Heq).
      apply String.eqb_eq in Heq. now subst. }
  destruct Hfinal as (t2 & Ht2 & Hk2 & Hs2).
  destruct s1 as [g1 tr1]. simpl in Ht2.
  pose proof (add_records_ok client g1 d tid t2 _ tr1 _ _ Ht2 Hadd) as Hfin.
  eexists d, _, (tbl_records t2). split; [exact Hfin|]. simpl. auto.
Qed.

Lemma send_to_grist_fills_prepared_table_witness :
  exists d t,
    table_of
      (remote (snd (send_to_grist grist serve date_only [0; 1; 0]%nat "key"
                      "https://grist.example.com/" "ABS_Scraper_Data"
                      "MSM_Results" "brightstar" false None
                      "2025-11-04T10:00:00" example_heap
                      (mk_state example_remote []))))
      d "MSM_Results" = Some t
    /\ dict_contains "scraped_at" (tbl_columns t) = true.
Proof.
  set (run := send_to_grist grist serve date_only [0; 1; 0]%nat "key"
                "https://grist.example.com/" "ABS_Scraper_Data" "MSM_Results"
                "brightstar" false None "2025-11-04T10:00:00" example_heap
                (mk_state example_remote [])).
  destruct (send_to_grist_fills_prepared_table example_remote date_only
              0%nat [1; 0]%nat "key" "https://grist.example.com/"
              "ABS_Scraper_Data" "MSM_Results" "brightstar" false None
              "2025-11-04T10:00:00" example_heap []
              (match fst (fst run) with Ok (Some v) => v | _ => PNone end)
              (snd (fst run)) (snd run) eq_refl)
    as (d & t & before & Ht & _ & Hs & _).
  exists d, t. split; [exact Ht | exact Hs].
Defined.

(** X14: the [upsert] flag and [key_columns] change nothing: with any
    values for them [send_to_grist] sends the same requests, leaves the same
    records and returns the same result as a plain run. *)
Theorem send_to_grist_ignores_upsert :
  forall World (requests_request : request -> World -> reply * World)
         fromisoformat (data : list loc) key url doc_name table_name organisation
         upsert key_columns timestamp (h : heap) (s : state World),
    send_to_grist World requests_request fromisoformat data key url doc_name
      table_name organisation upsert key_columns timestamp h s
    = send_to_grist World requests_request fromisoformat data key url doc_name
        table_name organisation false None timestamp h s.
Proof.
  intros World rr f data key url doc_name tid organisation upsert kc ts h s.
  unfold send_to_grist. destruct data as [|l0 rest]; auto.
  destruct (prepare_table _ _ _ _ _ _ _ _) as [[doc_id|e] s1]; auto.
  destruct upsert; auto. unfold upsert_records. now destruct kc.
Qed.

(** ** Creating a document once *)

Section CreateOnce.
Variable self : GristClient.

Lemma serve_create_document g w name :
  find (names_workspace (PInt (ws_id w))) (workspaces g) = Some w ->
  serve (build_request self POST (WorkspaceDocs (PInt (ws_id w)))
           (Some (PDict [("name", PStr name)]))) g
  = match dict_get (new_doc_id g) (docs g) with
    | Some _ => (err 500, g)
    | None =>
        (ok (PDict [("id", PStr (new_doc_id g)); ("name", PStr name)]),
         with_new_doc g w name)
    end.
Proof.
  intros Hw. unfold serve, new_doc_id, with_new_doc. simpl. rewrite Hw. simpl.
  destruct (dict_get _ (docs g)); reflexivity.
Qed.

(** The whole run of [get_or_create_document] without a workspace id. *)
Lemma get_or_create_document_run g doc_name tr :
  exists evs,
    match find (fun w => String.eqb (ws_name w) (org self)) (workspaces g) with
    | None =>
        exists e,
        get_or_create_document grist serve self doc_name PNone (mk_state g tr)
        = (Raise e, mk_state g (tr ++ evs))
    | Some w0 =>
        match find (names_workspace (PInt (ws_id w0))) (workspaces g) with
        | None =>
            exists e,
            get_or_create_document grist serve self doc_name PNone (mk_state g tr)
            = (Raise e, mk_state g (tr ++ evs))
        | Some w =>
            match find (has_name doc_name) (listing g w) with
            | Some doc =>
                get_or_create_document grist serve self doc_name PNone (mk_state g tr)
                = (Ok doc, mk_state g (tr ++ evs))
                /\ write_calls (calls evs) = []
            | None =>
                match dict_get (new_doc_id g) (docs g) with
                | Some _ =>
                    exists e,
                    get_or_create_document grist serve self doc_name PNone
                      (mk_state g tr)
                    = (Raise e, mk_state g (tr ++ evs))
                | None =>
                    get_or_create_document grist serve self doc_name PNone
                      (mk_state g tr)
                    = (Ok (PDict [("id", PStr (new_doc_id g));
                                  ("name", PStr doc_name)]),
                       mk_state (with_new_doc g w doc_name) (tr ++ evs))
                end
            end
        end
    end.
Proof.
  destruct (get_or_create_document grist serve self doc_name PNone (mk_state g tr))
    as [r s1] eqn:E.
  unfold get_or_create_document, resolve_workspace_id in E.
  unfold bind at 1 in E. unfold bind at 1 in E. rewrite get_workspace_run in E.
  destruct (find (fun w => String.eqb (ws_name w) (org self)) (workspaces g))
    as [w0|] eqn:Hw0; simpl in E.
  2:{ inversion E; subst. eexists. eexists. reflexivity. }
  unfold list_documents, resolve_workspace_id, bind, ret in E.
  rewrite request_run in E. simpl in E. rewrite ?serve_list_documents in E.
  destruct (find (names_workspace (PInt (ws_id w0))) (workspaces g)) as [w|] eqn:Hw;
    simpl in E.
  2:{ inversion E; subst. eexists. eexists. rewrite <- app_assoc. reflexivity. }
  unfold listing in *. rewrite find_document_listing in E. simpl in E.
  destruct (find (has_name doc_name) _) as [doc|] eqn:Hfind; simpl in E.
  - inversion E; subst. eexists. rewrite <- app_assoc. split; reflexivity.
  - assert (Hid : ws_id w0 = ws_id w).
    { apply find_some in Hw as [_ Heq]. simpl in Heq. now apply Z.eqb_eq in Heq. }
    rewrite request_run in E. simpl in E. rewrite Hid in E.
    rewrite serve_create_document in E by (rewrite <- Hid; exact Hw).
    destruct (dict_get (new_doc_id g) (docs g)); simpl in E; inversion E; subst.
    + eexists. eexists. rewrite <- !app_assoc. reflexivity.
    + eexists. rewrite <- !app_assoc. reflexivity.
Qed.
End CreateOnce.

Lemma find_map_preserved {A} (p : A -> bool) (phi : A -> A) l :
  (forall x, p (phi x) = p x) ->
  find p (map phi l) = option_map phi (find p l).
Proof.
  intros H. induction l as [|x l IH]; simpl; auto.
  rewrite H. destruct (p x); auto.
Qed.

Lemma document_json_new g w name :
  dict_get (new_doc_id g) (docs g) = None ->
  document_json (with_new_doc g w name) (new_doc_id g)
  = [PDict [("id", PStr (new_doc_id g)); ("name", PStr name)]].
Proof.
  intros _. unfold document_json, with_new_doc. simpl.
  now rewrite dict_get_set_eq.
Qed.

Lemma document_json_old g w name i :
  i <> new_doc_id g ->
  document_json (with_new_doc g w name) i = document_json g i.
Proof.
  intros Hne. unfold document_json, with_new_doc. simpl.
  rewrite dict_get_set_neq by congruence. reflexivity.
Qed.

Lemma find_append {A} (p : A -> bool) l1 l2 :
  find p (l1 ++ l2) = match find p l1 with Some x => Some x | None => find p l2 end.
Proof.
  induction l1 as [|x l1 IH]; simpl; auto. now destruct (p x).
Qed.

Lemma find_created g w name ids :
  dict_get (new_doc_id g) (docs g) = None ->
  find (has_name name) (flat_map (document_json g) ids) = None ->
  find (has_name name)
    (flat_map (document_json (with_new_doc g w name)) (ids ++ [new_doc_id g]))
  = Some (PDict [("id", PStr (new_doc_id g)); ("name", PStr name)]).
Proof.
  intros Hfresh. induction ids as [|i ids IH]; simpl; intros Hnone.
  - rewrite document_json_new by assumption. simpl.
    now rewrite String.eqb_refl.
  - destruct (String.eqb_spec i (new_doc_id g)) as [->|Hne].
    + rewrite document_json_new by assumption. simpl.
      now rewrite String.eqb_refl.
    + rewrite document_json_old by assumption.
      rewrite find_append in *.
      destruct (find (has_name name) (document_json g i)); [discriminate|].
      now apply IH.
Qed.

(** X15: [get_or_create_document] creates a document at most once: when a
    call without a workspace id returns a document, calling it again with
    the same name returns the same document, sends no creation request and
    leaves the remote side as it is. *)
Theorem get_or_create_document_idempotent :
  forall (g : grist) self doc_name tr doc s1,
    get_or_create_document grist serve self doc_name PNone (mk_state g tr)
    = (Ok doc, s1) ->
    exists evs,
      get_or_create_document grist serve self doc_name PNone s1
      = (Ok doc, mk_state (remote s1) (trace s1 ++ evs))
      /\ write_calls (calls evs) = [].
Proof.
  intros g self doc_name tr doc s1 Hrun.
  destruct (get_or_create_document_run self g doc_name tr) as [evs1 H1].
  destruct (find (fun w => String.eqb (ws_name w) (org self)) (workspaces g))
    as [w0|] eqn:Hw0.
  2:{ destruct H1 as [e H1]. rewrite H1 in Hrun. discriminate. }
  destruct (find (names_workspace (PInt (ws_id w0))) (workspaces g)) as [w|] eqn:Hw.
  2:{ destruct H1 as [e H1]. rewrite H1 in Hrun. discriminate. }
  destruct (find (has_name doc_name) (listing g w)) as [doc0|] eqn:Hfind.
  - destruct H1 as [H1 _]. rewrite H1 in Hrun. inversion Hrun; subst doc0 s1.
    simpl.
    destruct (get_or_create_document_run self g doc_name (tr ++ evs1)) as [evs H2].
    rewrite Hw0, Hw, Hfind in H2. exists evs. exact H2.
  - destruct (dict_get (new_doc_id g) (docs g)) eqn:Hfresh.
    { destruct H1 as [e H1]. rewrite H1 in Hrun. discriminate. }
    rewrite H1 in Hrun. inversion Hrun; subst doc s1. simpl.
    set (phi := fun w' =>
                  if Z.eqb (ws_id w') (ws_id w)
                  then {| ws_id := ws_id w'; ws_name := ws_name w';
                          ws_docs := ws_docs w' ++ [new_doc_id g] |}
                  else w').
    assert (Hid : ws_id w0 = ws_id w).
    { apply find_some in Hw as [_ Heq]. simpl in Heq. now apply Z.eqb_eq in Heq. }
    assert (Hphi_id : forall x, ws_id (phi x) = ws_id x).
    { intros x. unfold phi. now destruct (Z.eqb (ws_id x) (ws_id w)). }
    assert (Hphi_name : forall x, ws_name (phi x) = ws_name x).
    { intros x. unfold phi. now destruct (Z.eqb (ws_id x) (ws_id w)). }
    destruct (get_or_create_document_run self (with_new_doc g w doc_name)
                doc_name (tr ++ evs1)) as [evs H2].
    assert (Hw0' : find (fun w => String.eqb (ws_name w) (org self))
                     (workspaces (with_new_doc g w doc_name)) = Some (phi w0)).
    { simpl. fold phi. rewrite find_map_preserved, Hw0; auto.
      intros x. now rewrite Hphi_name. }
    assert (Hw' : find (names_workspace (PInt (ws_id (phi w0))))
                    (workspaces (with_new_doc g w doc_name)) = Some (phi w)).
    { simpl. fold phi. rewrite Hphi_id, find_map_preserved, Hw; auto.
      intros x. simpl. now rewrite Hphi_id. }
    rewrite Hw0', Hw' in H2.
    assert (Hlist : find (has_name doc_name)
                      (listing (with_new_doc g w doc_name) (phi w))
                    = Some (PDict [("id", PStr (new_doc_id g));
                                   ("name", PStr doc_name)])).
    { unfold listing. unfold phi at 1. rewrite Z.eqb_refl. simpl ws_docs.
      now apply find_created. }
    rewrite Hlist in H2. exists evs. exact H2.
Qed.

Lemma get_or_create_document_idempotent_witness :
  exists evs,
    get_or_create_document grist serve example_client "New_Data" PNone
      (snd (get_or_create_document grist serve example_client "New_Data" PNone
              (mk_state example_remote [])))
    = (Ok (PDict [("id", PStr "doc0"); ("name", PStr "New_Data")]),
       mk_state
         (remote (snd (get_or_create_document grist serve example_client
                         "New_Data" PNone (mk_state example_remote []))))
         (trace (snd (get_or_create_document grist serve example_client
                        "New_Data" PNone (mk_state example_remote []))) ++ evs))
    /\ write_calls (calls evs) = [].
Proof.
  apply (get_or_create_document_idempotent example_remote example_client
           "New_Data" []).
  reflexivity.
Defined.
